(** * The agentic tool-calling loop of the course-materials chatbot

    A shallow embedding of [backend/ai_generator.py] (class [AIGenerator]:
    [generate_response] and [_execute_tool_calls]) together with the
    retrieval tool and the query orchestrator that sit around it, and the
    properties of the control loop: bound on model requests, early return,
    message threading, tool-failure recovery.

    Python strings are [string]; lists are [list]; an optional argument
    ([None] or a value) is an [option].  The model backend
    ([client.messages.create]) and the tool manager are objects whose methods
    act on an external world, so every call threads a [World] and is written
    to a trace, the way a mock records [call_args_list]. *)

From Stdlib Require Import String Ascii List Arith ZArith Lia Bool DecimalString.
Import ListNotations.

Local Open Scope string_scope.
Local Open Scope list_scope.

(** ** Strings *)

Definition nl : string := String (ascii_of_nat 10) EmptyString.
Definition dquote : string := String (ascii_of_nat 34) EmptyString.

(** Python truthiness of a [str]: the empty string is falsy. *)
Definition str_truthy (s : string) : bool :=
  match s with
  | EmptyString => false
  | String _ _ => true
  end.

(** Python truthiness of a [list]: the empty list is falsy. *)
Definition list_truthy {A : Type} (l : list A) : bool :=
  match l with
  | [] => false
  | _ :: _ => true
  end.

(** Truthiness of an [Optional] argument: [None] is falsy, a value is as
    truthy as [truthy] says. *)
Definition opt_truthy {A : Type} (truthy : A -> bool) (o : option A) : bool :=
  match o with
  | None => false
  | Some a => truthy a
  end.

(** Python's [needle in hay] on strings. *)
Fixpoint str_in (needle hay : string) : bool :=
  if prefix needle hay then true
  else match hay with
       | EmptyString => false
       | String _ rest => str_in needle rest
       end.

(** Does character [c] occur in [s]? *)
Fixpoint has_char (c : ascii) (s : string) : bool :=
  match s with
  | EmptyString => false
  | String a rest => Ascii.eqb a c || has_char c rest
  end.

(** [str(n)] of an [int]. *)
Definition str_of_int (n : Z) : string := NilEmpty.string_of_int (Z.to_int n).

(** ** Exceptions

    What can be raised while [generate_response] runs.  [ToolFailure msg] is
    an [Exception] raised inside [tool_manager.execute_tool], [msg] being its
    [str()]; [BackendFailure msg] is one raised by [client.messages.create];
    [IndexError] and [AttributeError] are what the expression
    [response.content[0].text] raises on an empty content list and on a first
    block without a [text] attribute. *)
Inductive Exn : Type :=
| IndexError
| AttributeError (type_name attribute : string)
| BackendFailure (msg : string)
| ToolFailure (msg : string).

(** [str(e)] as interpolated by an f-string. *)
Definition exn_str (e : Exn) : string :=
  match e with
  | IndexError => "list index out of range"
  | AttributeError type_name attribute =>
      "'" ++ type_name ++ "' object has no attribute '" ++ attribute ++ "'"
  | BackendFailure msg => msg
  | ToolFailure msg => msg
  end.

Section Controller.

(** [Args]: the keyword arguments of a tool-use block ([content_block.input]).
    [ToolDef]: one entry of the tool catalog.  [World]: everything outside
    the controller that calls can read and change. *)
Variable Args : Type.
Variable ToolDef : Type.
Variable World : Type.

(** *** Messages API data *)

Inductive ContentBlock : Type :=
| TextBlock (text : string)
| ToolUseBlock (id : string) (name : string) (input : Args).

Record Response : Type := mkResponse {
  stop_reason : string;
  content : list ContentBlock
}.

(** [{"type": "tool_result", "tool_use_id": ..., "content": ...}] *)
Record ToolResult : Type := mkToolResult {
  tool_use_id : string;
  result_content : string
}.

Inductive Role : Type := user | assistant.

(** The ["content"] of a message: the query text, the blocks of a model
    turn, or the bundled tool results of a round. *)
Inductive MessageContent : Type :=
| Text (s : string)
| Blocks (bs : list ContentBlock)
| Results (rs : list ToolResult).

Record Message : Type := mkMessage {
  role : Role;
  msg_content : MessageContent
}.

(** [{"type": "auto"}] *)
Record ToolChoice : Type := mkToolChoice { choice_type : string }.

(** The keyword arguments of one [client.messages.create] call.  A key that
    is absent from the dict ([tools], [tool_choice]) is [None]. *)
Record ApiParams : Type := mkApiParams {
  model : string;
  temperature : nat;
  max_tokens : nat;
  messages : list Message;
  system : string;
  tools : option (list ToolDef);
  tool_choice : option ToolChoice
}.

(** *** Collaborators *)

(** [client.messages.create]: answers or raises. *)
Record Client : Type := mkClient {
  messages_create : ApiParams -> World -> (string + Response) * World
}.

(** [tool_manager.execute_tool]: returns the tool's text or raises an
    exception whose [str()] is the left value.  A tool manager object is
    always truthy; only [None] is not. *)
Record ToolManager : Type := mkToolManager {
  execute_tool : string -> Args -> World -> (string + string) * World
}.

(** *** Trace of calls that left the controller

    A request is recorded with the parameters it carried when it was issued
    (the source keeps appending to the one [messages] list afterwards), next
    to what the collaborator answered. *)

Inductive Event : Type :=
| ModelCall (params : ApiParams) (answer : string + Response)
| ToolCall (name : string) (input : Args) (outcome : string + string).

Record Run : Type := mkRun {
  world : World;
  trace : list Event
}.

(** *** A state-and-exception monad over [Run] *)

Definition M (A : Type) : Type := Run -> (Exn + A) * Run.

Definition ret {A : Type} (a : A) : M A := fun s => (inr a, s).

Definition raise {A : Type} (e : Exn) : M A := fun s => (inl e, s).

Definition bind {A B : Type} (m : M A) (k : A -> M B) : M B :=
  fun s =>
    match m s with
    | (inl e, s') => (inl e, s')
    | (inr a, s') => k a s'
    end.

(** [try: body  except Exception as e: handler(e)] *)
Definition try_except {A : Type} (body : M A) (handler : Exn -> M A) : M A :=
  fun s =>
    match body s with
    | (inl e, s') => handler e s'
    | (inr a, s') => (inr a, s')
    end.

Notation "x <- m ;; k" := (bind m (fun x => k))
  (at level 61, m at next level, right associativity).

(** The call [client.messages.create], recorded. *)
Definition create (c : Client) (params : ApiParams) : M Response :=
  fun s =>
    let '(answer, w) := messages_create c params (world s) in
    let s' := {| world := w; trace := trace s ++ [ModelCall params answer] |} in
    match answer with
    | inl msg => (inl (BackendFailure msg), s')
    | inr r => (inr r, s')
    end.

(** The call [tool_manager.execute_tool(name, ...)], recorded.  On [None]
    the attribute lookup itself raises and nothing is called. *)
Definition call_tool (tool_manager : option ToolManager) (name : string)
    (input : Args) : M string :=
  match tool_manager with
  | None => raise (AttributeError "NoneType" "execute_tool")
  | Some tm =>
      fun s =>
        let '(outcome, w) := execute_tool tm name input (world s) in
        let s' := {| world := w;
                     trace := trace s ++ [ToolCall name input outcome] |} in
        match outcome with
        | inl msg => (inl (ToolFailure msg), s')
        | inr text => (inr text, s')
        end
  end.

(** *** class AIGenerator *)

Definition MAX_TOOL_ROUNDS : nat := 2.

Definition SYSTEM_PROMPT : string :=
  " You are an AI assistant specialized in course materials and educational content with access to a comprehensive search tool for course information." ++ nl ++
  nl ++
  "Search Tool Usage:" ++ nl ++
  "- Use the search tool **only** for questions about specific course content or detailed educational materials" ++ nl ++
  "- Use the `get_course_outline` tool when asked for a course outline, structure, lesson list, or available lessons — it returns the course title, link, and complete numbered lesson list" ++ nl ++
  "- **Up to 2 tool calls per query** — use a second tool call only when the first result reveals you need additional or more targeted information to fully answer the question" ++ nl ++
  "- Synthesize search results into accurate, fact-based responses" ++ nl ++
  "- If search yields no results, state this clearly without offering alternatives" ++ nl ++
  nl ++
  "Response Protocol:" ++ nl ++
  "- **General knowledge questions**: Answer using existing knowledge without searching" ++ nl ++
  "- **Course-specific questions**: Search first, then answer" ++ nl ++
  "- **No meta-commentary**:" ++ nl ++
  " - Provide direct answers only — no reasoning process, search explanations, or question-type analysis" ++ nl ++
  " - Do not mention " ++ dquote ++ "based on the search results" ++ dquote ++ nl ++
  nl ++
  nl ++
  "All responses must be:" ++ nl ++
  "1. **Brief, Concise and focused** - Get to the point quickly" ++ nl ++
  "2. **Educational** - Maintain instructional value" ++ nl ++
  "3. **Clear** - Use accessible language" ++ nl ++
  "4. **Example-supported** - Include relevant examples when they aid understanding" ++ nl ++
  "Provide only the direct answer to what was asked." ++ nl.

(** [__init__]: the client and the model name; [base_params] is built from
    them. *)
Record AIGenerator : Type := mkAIGenerator {
  client : Client;
  gen_model : string
}.

(** [{**self.base_params, "messages": messages, "system": system_content}] *)
Definition base_with (self : AIGenerator) (msgs : list Message)
    (system_content : string) : ApiParams :=
  {| model := gen_model self;
     temperature := 0;
     max_tokens := 800;
     messages := msgs;
     system := system_content;
     tools := None;
     tool_choice := None |}.

(** [api_params["tools"] = tools; api_params["tool_choice"] = {"type": "auto"}] *)
Definition with_tools (p : ApiParams) (ts : list ToolDef) : ApiParams :=
  {| model := model p;
     temperature := temperature p;
     max_tokens := max_tokens p;
     messages := messages p;
     system := system p;
     tools := Some ts;
     tool_choice := Some {| choice_type := "auto" |} |}.

(** [api_params["messages"] = messages] *)
Definition with_messages (p : ApiParams) (msgs : list Message) : ApiParams :=
  {| model := model p;
     temperature := temperature p;
     max_tokens := max_tokens p;
     messages := msgs;
     system := system p;
     tools := tools p;
     tool_choice := tool_choice p |}.

(** [response.content[0].text] *)
Definition first_text (r : Response) : M string :=
  match content r with
  | [] => raise IndexError
  | TextBlock t :: _ => ret t
  | ToolUseBlock _ _ _ :: _ => raise (AttributeError "ToolUseBlock" "text")
  end.

(** One pass of the body of the [for content_block in response.content]
    loop of [_execute_tool_calls], on the accumulators
    [(tool_results, had_error)]. *)
Definition execute_block (tm : option ToolManager)
    (acc : list ToolResult * bool) (b : ContentBlock)
    : M (list ToolResult * bool) :=
  let '(tool_results, had_error) := acc in
  match b with
  | ToolUseBlock id name input =>
      try_except
        (tool_result <- call_tool tm name input ;;
         ret (tool_results ++ [{| tool_use_id := id;
                                  result_content := tool_result |}],
              had_error))
        (fun e =>
           ret (tool_results ++ [{| tool_use_id := id;
                                    result_content :=
                                      "Tool execution error: " ++ exn_str e |}],
                true))
  | TextBlock _ => ret acc
  end.

Fixpoint for_each_block (tm : option ToolManager) (bs : list ContentBlock)
    (acc : list ToolResult * bool) : M (list ToolResult * bool) :=
  match bs with
  | [] => ret acc
  | b :: rest =>
      acc' <- execute_block tm acc b ;;
      for_each_block tm rest acc'
  end.

(** [_execute_tool_calls(self, response, tool_manager)] *)
Definition _execute_tool_calls (response : Response)
    (tm : option ToolManager)
    : M (list ToolResult * bool) :=
  for_each_block tm (content response) ([], false).

(** How the [for _ in range(self.MAX_TOOL_ROUNDS)] loop is left: by the
    [return] inside it, or by falling out of it (rounds exhausted, or
    [break]) with the message list built so far. *)
Inductive LoopExit : Type :=
| Returned (text : string)
| FellThrough (msgs : list Message).

(** The loop, [rounds] iterations left.  [messages] and
    [api_params["messages"]] are one list object in the source, so the
    current message list is read from [api_params]. *)
Fixpoint tool_rounds (self : AIGenerator) (tool_manager : option ToolManager)
    (rounds : nat) (api_params : ApiParams) : M LoopExit :=
  match rounds with
  | 0 => ret (FellThrough (messages api_params))
  | S rounds' =>
      response <- create (client self) api_params ;;
      if negb (stop_reason response =? "tool_use")
         || negb (opt_truthy (fun _ => true) tool_manager)
      then
        text <- first_text response ;;
        ret (Returned text)
      else
        r <- _execute_tool_calls response tool_manager ;;
        let '(tool_results, had_error) := r in
        let msgs := messages api_params
                      ++ [ {| role := assistant;
                              msg_content := Blocks (content response) |} ;
                           {| role := user;
                              msg_content := Results tool_results |} ] in
        let api_params' := with_messages api_params msgs in
        if had_error then ret (FellThrough msgs)
        else tool_rounds self tool_manager rounds' api_params'
  end.

(** [system_content] of [generate_response]. *)
Definition system_content_of (conversation_history : option string) : string :=
  if opt_truthy str_truthy conversation_history then
    match conversation_history with
    | Some h => SYSTEM_PROMPT ++ nl ++ nl ++ "Previous conversation:" ++ nl ++ h
    | None => SYSTEM_PROMPT
    end
  else SYSTEM_PROMPT.

(** [api_params] as it stands when the loop is entered. *)
Definition initial_params (self : AIGenerator) (query : string)
    (conversation_history : option string)
    (tools_arg : option (list ToolDef)) : ApiParams :=
  let system_content := system_content_of conversation_history in
  let msgs := [ {| role := user; msg_content := Text query |} ] in
  let api_params := base_with self msgs system_content in
  if opt_truthy list_truthy tools_arg then
    match tools_arg with
    | Some ts => with_tools api_params ts
    | None => api_params
    end
  else api_params.

(** [generate_response(self, query, conversation_history, tools, tool_manager)] *)
Definition generate_response (self : AIGenerator) (query : string)
    (conversation_history : option string)
    (tools_arg : option (list ToolDef))
    (tool_manager : option ToolManager) : M string :=
  let system_content := system_content_of conversation_history in
  let api_params := initial_params self query conversation_history tools_arg in
  exit <- tool_rounds self tool_manager MAX_TOOL_ROUNDS api_params ;;
  match exit with
  | Returned text => ret text
  | FellThrough msgs =>
      let final_params := base_with self msgs system_content in
      final_response <- create (client self) final_params ;;
      first_text final_response
  end.

(** A run from a fresh trace. *)
Definition start (w : World) : Run := {| world := w; trace := [] |}.

(** *** Reading a trace *)

(** The model requests of a trace, in the order they were issued. *)
Fixpoint model_calls (t : list Event) : list (ApiParams * (string + Response)) :=
  match t with
  | [] => []
  | ModelCall p a :: t' => (p, a) :: model_calls t'
  | ToolCall _ _ _ :: t' => model_calls t'
  end.

Definition is_tool_call (e : Event) : Prop :=
  match e with
  | ToolCall _ _ _ => True
  | ModelCall _ _ => False
  end.

(** Did a tool execution raise? *)
Definition raised (outcome : string + string) : bool :=
  match outcome with
  | inl _ => true
  | inr _ => false
  end.

(** The Tool Result a tool-use block with this [id] gets for an outcome. *)
Definition result_for (id : string) (outcome : string + string) : ToolResult :=
  match outcome with
  | inr text => {| tool_use_id := id; result_content := text |}
  | inl msg => {| tool_use_id := id;
                  result_content := "Tool execution error: " ++ msg |}
  end.

(** The tool-use blocks of a response, in block order. *)
Fixpoint tool_uses (bs : list ContentBlock) : list (string * string * Args) :=
  match bs with
  | [] => []
  | ToolUseBlock id name input :: bs' => (id, name, input) :: tool_uses bs'
  | TextBlock _ :: bs' => tool_uses bs'
  end.

(** One [ToolCall] event and one Tool Result per tool-use directive, paired
    with the outcomes in order. *)
Fixpoint tool_events (uses : list (string * string * Args))
    (outs : list (string + string)) : list Event :=
  match uses, outs with
  | (_, name, input) :: uses', o :: outs' =>
      ToolCall name input o :: tool_events uses' outs'
  | _, _ => []
  end.

Fixpoint tool_results_for (uses : list (string * string * Args))
    (outs : list (string + string)) : list ToolResult :=
  match uses, outs with
  | (id, _, _) :: uses', o :: outs' =>
      result_for id o :: tool_results_for uses' outs'
  | _, _ => []
  end.

(** The outcomes the tool manager gives for the directives, executed one
    after the other from world [w], and the world they leave. *)
Fixpoint tool_outcomes (tm : ToolManager) (uses : list (string * string * Args))
    (w : World) : list (string + string) * World :=
  match uses with
  | [] => ([], w)
  | (_, name, input) :: uses' =>
      let '(o, w1) := execute_tool tm name input w in
      let '(outs, w2) := tool_outcomes tm uses' w1 in
      (o :: outs, w2)
  end.

(** The value of [response.content[0].text]. *)
Definition first_text_value (r : Response) : Exn + string :=
  match content r with
  | [] => inl IndexError
  | TextBlock t :: _ => inr t
  | ToolUseBlock _ _ _ :: _ => inl (AttributeError "ToolUseBlock" "text")
  end.

(** The message list after a tool round on response [r]. *)
Definition next_messages (msgs : list Message) (r : Response)
    (outs : list (string + string)) : list Message :=
  msgs ++ [ {| role := assistant; msg_content := Blocks (content r) |} ;
            {| role := user;
               msg_content :=
                 Results (tool_results_for (tool_uses (content r)) outs) |} ].

(** The condition of the [return] inside the loop. *)
Definition returns_at_once (tool_manager : option ToolManager)
    (r : Response) : Prop :=
  stop_reason r <> "tool_use" \/ tool_manager = None.

(** The events a run of the loop can append, [rounds] iterations left and
    [p] the current [api_params], and how the loop is then left. *)
Inductive loop_trace (tool_manager : option ToolManager)
    : nat -> ApiParams -> list Event -> Exn + LoopExit -> Prop :=
| lt_exhausted p :
    loop_trace tool_manager 0 p [] (inr (FellThrough (messages p)))
| lt_backend n p msg :
    loop_trace tool_manager (S n) p [ModelCall p (inl msg)]
      (inl (BackendFailure msg))
| lt_return n p r t :
    returns_at_once tool_manager r ->
    first_text_value r = inr t ->
    loop_trace tool_manager (S n) p [ModelCall p (inr r)] (inr (Returned t))
| lt_return_raises n p r e :
    returns_at_once tool_manager r ->
    first_text_value r = inl e ->
    (e = IndexError \/ e = AttributeError "ToolUseBlock" "text") ->
    loop_trace tool_manager (S n) p [ModelCall p (inr r)] (inl e)
| lt_break n p r outs :
    stop_reason r = "tool_use" ->
    tool_manager <> None ->
    length outs = length (tool_uses (content r)) ->
    existsb raised outs = true ->
    loop_trace tool_manager (S n) p
      (ModelCall p (inr r) :: tool_events (tool_uses (content r)) outs)
      (inr (FellThrough (next_messages (messages p) r outs)))
| lt_round n p r outs rest exit :
    stop_reason r = "tool_use" ->
    tool_manager <> None ->
    length outs = length (tool_uses (content r)) ->
    existsb raised outs = false ->
    loop_trace tool_manager n
      (with_messages p (next_messages (messages p) r outs)) rest exit ->
    loop_trace tool_manager (S n) p
      (ModelCall p (inr r) :: tool_events (tool_uses (content r)) outs ++ rest)
      exit.

(** The events a run of [generate_response] can append and its outcome:
    the loop's, then the synthesis call with [system_content] when the loop
    was left without a [return]. *)
Inductive response_trace (self : AIGenerator) (system_content : string)
    (tool_manager : option ToolManager) (p0 : ApiParams)
    : list Event -> Exn + string -> Prop :=
| rt_returned evs t :
    loop_trace tool_manager MAX_TOOL_ROUNDS p0 evs (inr (Returned t)) ->
    response_trace self system_content tool_manager p0 evs (inr t)
| rt_raised evs e :
    loop_trace tool_manager MAX_TOOL_ROUNDS p0 evs (inl e) ->
    response_trace self system_content tool_manager p0 evs (inl e)
| rt_synthesis evs msgs a out :
    loop_trace tool_manager MAX_TOOL_ROUNDS p0 evs (inr (FellThrough msgs)) ->
    out = match a with
          | inl msg => inl (BackendFailure msg)
          | inr r => first_text_value r
          end ->
    response_trace self system_content tool_manager p0
      (evs ++ [ModelCall (base_with self msgs system_content) a]) out.

(** Roles read [expected], then the other, then [expected] again ... *)
Definition other (r : Role) : Role :=
  match r with
  | user => assistant
  | assistant => user
  end.

Definition role_eqb (a b : Role) : bool :=
  match a, b with
  | user, user | assistant, assistant => true
  | _, _ => false
  end.

Fixpoint alternates_from (expected : Role) (msgs : list Message) : bool :=
  match msgs with
  | [] => true
  | m :: msgs' =>
      role_eqb (role m) expected && alternates_from (other expected) msgs'
  end.

(** A trace in which the messages are threaded from [msgs]: each request
    carries the list of the one before it, extended by the tool round that
    was made on that one's response and whose calls lie between the two. *)
Inductive threaded : list Message -> list Event -> Prop :=
| th_none msgs : threaded msgs []
| th_last p a : threaded (messages p) [ModelCall p a]
| th_next p r outs rest :
    length outs = length (tool_uses (content r)) ->
    threaded (next_messages (messages p) r outs) rest ->
    threaded (messages p)
      (ModelCall p (inr r) :: tool_events (tool_uses (content r)) outs ++ rest).

(** A message list a request may carry: it opens with the query and its
    roles alternate from [user] to end on [user]. *)
Definition opens_and_alternates (query : string)
    (msgs : list Message) : Prop :=
  (exists tail, msgs = {| role := user; msg_content := Text query |} :: tail) /\
  alternates_from user msgs = true /\
  Nat.even (length msgs) = false.

(** A request that offers the catalog, and one that offers none. *)
Definition carries_catalog (catalog : list ToolDef) (p : ApiParams) : Prop :=
  tools p = Some catalog /\
  tool_choice p = Some {| choice_type := "auto" |}.

Definition without_catalog (p : ApiParams) : Prop :=
  tools p = None /\ tool_choice p = None.

(** The tool policy of one call of [generate_response] from world [w], for
    a catalog: the requests issued by the loop carry it, and the request
    that follows a loop left without [return] is the only further one and
    carries none. *)
Definition catalog_policy (self : AIGenerator) (query : string)
    (conversation_history : option string)
    (tools_arg : option (list ToolDef))
    (tool_manager : option ToolManager) (w : World)
    (catalog : list ToolDef) : Prop :=
  let p0 := initial_params self query conversation_history tools_arg in
  let loop := tool_rounds self tool_manager MAX_TOOL_ROUNDS p0 (start w) in
  let run := generate_response self query conversation_history tools_arg
               tool_manager (start w) in
  (forall p a, In (ModelCall p a) (trace (snd loop)) ->
               carries_catalog catalog p) /\
  (forall msgs, fst loop = inr (FellThrough msgs) ->
     exists final a,
       trace (snd run) = trace (snd loop) ++ [ModelCall final a] /\
       messages final = msgs /\
       without_catalog final) /\
  ((forall msgs, fst loop <> inr (FellThrough msgs)) ->
     trace (snd run) = trace (snd loop)).

End Controller.

Arguments TextBlock {Args}.
Arguments ToolUseBlock {Args}.
Arguments mkResponse {Args}.
Arguments stop_reason {Args}.
Arguments content {Args}.
Arguments Text {Args}.
Arguments Blocks {Args}.
Arguments Results {Args}.
Arguments mkMessage {Args}.
Arguments role {Args}.
Arguments msg_content {Args}.
Arguments mkApiParams {Args ToolDef}.
Arguments model {Args ToolDef}.
Arguments temperature {Args ToolDef}.
Arguments max_tokens {Args ToolDef}.
Arguments messages {Args ToolDef}.
Arguments system {Args ToolDef}.
Arguments tools {Args ToolDef}.
Arguments tool_choice {Args ToolDef}.
Arguments mkClient {Args ToolDef World}.
Arguments messages_create {Args ToolDef World}.
Arguments mkToolManager {Args World}.
Arguments execute_tool {Args World}.
Arguments ModelCall {Args ToolDef}.
Arguments ToolCall {Args ToolDef}.
Arguments mkRun {Args ToolDef World}.
Arguments world {Args ToolDef World}.
Arguments trace {Args ToolDef World}.
Arguments ret {Args ToolDef World A}.
Arguments raise {Args ToolDef World A}.
Arguments bind {Args ToolDef World A B}.
Arguments try_except {Args ToolDef World A}.
Arguments create {Args ToolDef World}.
Arguments call_tool {Args ToolDef World}.
Arguments mkAIGenerator {Args ToolDef World}.
Arguments client {Args ToolDef World}.
Arguments gen_model {Args ToolDef World}.
Arguments base_with {Args ToolDef World}.
Arguments with_tools {Args ToolDef}.
Arguments with_messages {Args ToolDef}.
Arguments first_text {Args ToolDef World}.
Arguments execute_block {Args ToolDef World}.
Arguments for_each_block {Args ToolDef World}.
Arguments _execute_tool_calls {Args ToolDef World}.
Arguments Returned {Args}.
Arguments FellThrough {Args}.
Arguments tool_rounds {Args ToolDef World}.
Arguments initial_params {Args ToolDef World}.
Arguments generate_response {Args ToolDef World}.
Arguments start {Args ToolDef World}.
Arguments model_calls {Args ToolDef}.
Arguments is_tool_call {Args ToolDef}.
Arguments tool_uses {Args}.
Arguments tool_events {Args ToolDef}.
Arguments tool_results_for {Args}.
Arguments tool_outcomes {Args World}.
Arguments first_text_value {Args}.
Arguments next_messages {Args}.
Arguments returns_at_once {Args World}.
Arguments loop_trace {Args ToolDef World}.
Arguments response_trace {Args ToolDef World}.
Arguments alternates_from {Args}.
Arguments threaded {Args ToolDef}.
Arguments th_none {Args ToolDef}.
Arguments th_last {Args ToolDef}.
Arguments th_next {Args ToolDef}.
Arguments opens_and_alternates {Args}.
Arguments carries_catalog {Args ToolDef}.
Arguments without_catalog {Args ToolDef}.
Arguments catalog_policy {Args ToolDef World}.

(** * The retrieval tool

    [search_tools.py] is not among the sources at hand; the tool is modelled
    from the specification (sections 3, 4.3 and 6) and from the strings the
    tests of [tests/test_course_search_tool.py] expect. *)

Module CourseSearchTool.

(** Modelled from the spec: the metadata of a matched chunk,
    [{course_title, lesson_number?}] (missing: [vector_store.py]). *)
Record ChunkMeta : Type := mkChunkMeta {
  course_title : string;
  lesson_number : option Z
}.

(** Modelled from the spec: what the retrieval store answers (missing:
    [vector_store.SearchResults]), ranked chunk texts with their metadata,
    or an error message.  The distances are not used by the tool and are
    left out. *)
Inductive SearchResults : Type :=
| Matches (documents : list string) (metadata : list ChunkMeta)
| SearchError (message : string).

(** Modelled from the spec: the retrieval store (missing:
    [vector_store.VectorStore]), as it answers at the time of a call. *)
Record Store : Type := mkStore {
  search : string -> option string -> option Z -> SearchResults;
  get_lesson_link : string -> Z -> option string
}.

(** Modelled from the spec: a citation (missing: [search_tools.py]), a
    display label paired with an optional URL. *)
Record Citation : Type := mkCitation {
  label : string;
  url : option string
}.

(** Modelled from the spec: the tool instance (missing:
    [search_tools.CourseSearchTool]), which owns its citation list. *)
Record Tool : Type := mkTool {
  last_sources : list Citation
}.

(** Modelled from the spec: the label of a chunk (missing:
    [CourseSearchTool._format_results]), the course title, optionally
    followed by [ - Lesson N]. *)
Definition chunk_label (m : ChunkMeta) : string :=
  match lesson_number m with
  | Some n => course_title m ++ " - Lesson " ++ str_of_int n
  | None => course_title m
  end.

(** Modelled from the spec: the header of a chunk (missing:
    [CourseSearchTool._format_results]), [[<course title>]] or
    [[<course title> - Lesson <n>]], the label between brackets. *)
Definition chunk_header (m : ChunkMeta) : string :=
  "[" ++ chunk_label m ++ "]".

(** Modelled from the spec: the segment of a chunk (missing:
    [CourseSearchTool._format_results]), header and chunk text
    concatenated. *)
Definition chunk_segment (doc : string) (m : ChunkMeta) : string :=
  chunk_header m ++ doc.

(** Modelled from the spec: the citation of a chunk (missing:
    [CourseSearchTool._format_results]), the label and, when the store
    resolves a lesson link, its URL. *)
Definition chunk_citation (store : Store) (m : ChunkMeta) : Citation :=
  {| label := chunk_label m;
     url := match lesson_number m with
            | Some n => get_lesson_link store (course_title m) n
            | None => None
            end |}.

(** Modelled from the spec: the matched chunks (missing:
    [CourseSearchTool._format_results]), each text with its metadata. *)
Definition chunks (res : SearchResults) : list (string * ChunkMeta) :=
  match res with
  | Matches documents metadata => combine documents metadata
  | SearchError _ => []
  end.

(** Modelled from the spec: the citations one execution produces
    (missing: [CourseSearchTool.execute]), one per matched chunk. *)
Definition citations (store : Store) (res : SearchResults) : list Citation :=
  map (fun c => chunk_citation store (snd c)) (chunks res).

(** Modelled from the spec: the message for zero matches (missing:
    [CourseSearchTool.execute]), the base message with the active filters
    appended. *)
Definition no_content_message (course_name : option string)
    (lesson : option Z) : string :=
  "No relevant content found"
    ++ match course_name with
       | Some c => " in course '" ++ c ++ "'"
       | None => EmptyString
       end
    ++ match lesson with
       | Some n => " in lesson " ++ str_of_int n
       | None => EmptyString
       end
    ++ ".".

(** Modelled from the spec: the text the tool returns (missing:
    [CourseSearchTool.execute]): the store's error text verbatim, the
    no-content message on zero matches, otherwise the segments of the
    matched chunks joined with a blank line. *)
Definition result_text (res : SearchResults) (course_name : option string)
    (lesson : option Z) : string :=
  match res with
  | SearchError message => message
  | Matches _ _ =>
      match chunks res with
      | [] => no_content_message course_name lesson
      | cs => String.concat (nl ++ nl)
                (map (fun c => chunk_segment (fst c) (snd c)) cs)
      end
  end.

(** Modelled from the spec: [execute(query, course_name, lesson_number)]
    (missing: [CourseSearchTool.execute]).  It delegates to the store's
    search, returns [result_text], and overwrites the citation list on
    every execution with one citation per matched chunk (section 3:
    overwritten, not appended, on every new execution), which records no
    citation when the store reports an error or matches nothing. *)
Definition execute (store : Store) (tool : Tool) (query : string)
    (course_name : option string) (lesson : option Z) : string * Tool :=
  let res := search store query course_name lesson in
  (result_text res course_name lesson,
   {| last_sources := citations store res |}).

(** The header and segment of a chunk without lesson metadata, as the
    eighth testable property words it: the header is the bracketed course
    title and the word [Lesson] is not in the segment. *)
Definition header_omits_lesson (doc : string) (m : ChunkMeta) : Prop :=
  chunk_header m = ("[" ++ course_title m ++ "]")%string /\
  str_in "Lesson" (chunk_segment doc m) = false.

End CourseSearchTool.

(** * The query orchestrator

    [rag_system.py] is not among the sources at hand; [query] is modelled
    from the specification (section 4.5), around the controller embedded
    above. *)

Section Orchestrator.

Variable Args : Type.
Variable ToolDef : Type.
Variable World : Type.

(** Modelled from the spec: the session store (missing:
    [session_manager.py]), [get_conversation_history] and [add_exchange]. *)
Record SessionStore : Type := mkSessionStore {
  get_conversation_history : string -> World -> option string;
  add_exchange : string -> string -> string -> World -> World
}.

(** Modelled from the spec: the tool registry (missing:
    [search_tools.ToolManager]), its definitions, its executor (the
    [tool_manager] of the controller), [last_sources] and [reset_sources]. *)
Record ToolRegistry : Type := mkToolRegistry {
  get_tool_definitions : World -> list ToolDef;
  executor : ToolManager Args World;
  get_last_sources : World -> list CourseSearchTool.Citation;
  reset_sources : World -> World
}.

(** Modelled from the spec: the orchestrator's collaborators (missing:
    [rag_system.RAGSystem]); [hyperlink url label] is the hyperlink format
    of a citation, which the specification leaves open. *)
Record RAGSystem : Type := mkRAGSystem {
  ai_generator : AIGenerator Args ToolDef World;
  session_manager : SessionStore;
  tool_manager_of : ToolRegistry;
  hyperlink : string -> string -> string
}.

(** Calls to the session store and the registry, as a mock records them. *)
Inductive StoreCall : Type :=
| HistoryFetched (session_id : string)
| SourcesRead
| SourcesReset
| ExchangeStored (session_id user_text assistant_text : string).

Record QueryRun : Type := mkQueryRun {
  controller_run : Run Args ToolDef World;
  store_calls : list StoreCall
}.

(** Modelled from the spec: the instructional template of step 1
    (missing: [RAGSystem.query]); the text is the one
    [test_query_wraps_user_query_in_prompt] expects. *)
Definition wrap_query (raw_text : string) : string :=
  "Answer this question about course materials: " ++ raw_text.

(** Modelled from the spec: the display string of a citation, step 6
    (missing: [RAGSystem.query]): hyperlink-formatted when it has a URL,
    the plain label otherwise. *)
Definition display (self : RAGSystem) (c : CourseSearchTool.Citation)
    : string :=
  match CourseSearchTool.url c with
  | Some u => hyperlink self u (CourseSearchTool.label c)
  | None => CourseSearchTool.label c
  end.

(** Modelled from the spec: [query(raw_text, session_id)], steps 1 to 6 of
    section 4.5 (missing: [RAGSystem.query]).  A failure of the controller
    propagates to the caller. *)
Definition query (self : RAGSystem) (raw_text : string)
    (session_id : option string) (st : QueryRun)
    : (Exn + (string * list string)) * QueryRun :=
  let prompt := wrap_query raw_text in
  let '(history, calls1) :=
    match session_id with
    | Some sid =>
        (get_conversation_history (session_manager self) sid
           (world (controller_run st)),
         store_calls st ++ [HistoryFetched sid])
    | None => (None, store_calls st)
    end in
  let registry := tool_manager_of self in
  match generate_response (ai_generator self) prompt history
          (Some (get_tool_definitions registry (world (controller_run st))))
          (Some (executor registry)) (controller_run st) with
  | (inl e, run1) => (inl e, {| controller_run := run1; store_calls := calls1 |})
  | (inr answer, run1) =>
      let sources := get_last_sources registry (world run1) in
      let w2 := reset_sources registry (world run1) in
      let calls2 := calls1 ++ [SourcesRead; SourcesReset] in
      let '(w3, calls3) :=
        match session_id with
        | Some sid =>
            (add_exchange (session_manager self) sid raw_text answer w2,
             calls2 ++ [ExchangeStored sid raw_text answer])
        | None => (w2, calls2)
        end in
      (inr (answer, map (display self) sources),
       {| controller_run := {| world := w3; trace := trace run1 |};
          store_calls := calls3 |})
  end.

(** The exchanges stored during a run. *)
Fixpoint stored_exchanges (calls : list StoreCall)
    : list (string * string * string) :=
  match calls with
  | [] => []
  | ExchangeStored sid u a :: rest => (sid, u, a) :: stored_exchanges rest
  | _ :: rest => stored_exchanges rest
  end.

(** A query from a fresh trace. *)
Definition start_query (w : World) : QueryRun :=
  {| controller_run := start w; store_calls := [] |}.

End Orchestrator.

Arguments mkSessionStore {World}.
Arguments get_conversation_history {World}.
Arguments add_exchange {World}.
Arguments mkToolRegistry {Args ToolDef World}.
Arguments get_tool_definitions {Args ToolDef World}.
Arguments executor {Args ToolDef World}.
Arguments get_last_sources {Args ToolDef World}.
Arguments reset_sources {Args ToolDef World}.
Arguments mkRAGSystem {Args ToolDef World}.
Arguments ai_generator {Args ToolDef World}.
Arguments session_manager {Args ToolDef World}.
Arguments tool_manager_of {Args ToolDef World}.
Arguments hyperlink {Args ToolDef World}.
Arguments mkQueryRun {Args ToolDef World}.
Arguments controller_run {Args ToolDef World}.
Arguments store_calls {Args ToolDef World}.
Arguments display {Args ToolDef World}.
Arguments query {Args ToolDef World}.
Arguments start_query {Args ToolDef World}.

(** * Scripted collaborators

    The test doubles of [tests/test_ai_generator.py]: a client and a tool
    manager that answer from a script, one entry per call, as a mock with a
    [side_effect] list does; an exhausted script raises. *)

Module Fixtures.

Definition Args : Type := list (string * string).
Definition ToolDef : Type := string.

Record Script : Type := mkScript {
  answers : list (string + Response Args);
  outcomes : list (string + string)
}.

Definition mock_client : Client Args ToolDef Script :=
  {| messages_create := fun _ w =>
       match answers w with
       | [] => (inl "StopIteration", w)
       | a :: rest => (a, {| answers := rest; outcomes := outcomes w |})
       end |}.

Definition mock_tool_manager : ToolManager Args Script :=
  {| execute_tool := fun _ _ w =>
       match outcomes w with
       | [] => (inl "StopIteration", w)
       | o :: rest => (o, {| answers := answers w; outcomes := rest |})
       end |}.

Definition tm : option (ToolManager Args Script) := Some mock_tool_manager.

Definition generator : AIGenerator Args ToolDef Script :=
  {| client := mock_client; gen_model := "claude-test" |}.

Definition make_text_response (text : string) : Response Args :=
  {| stop_reason := "end_turn"; content := [TextBlock text] |}.

Definition make_tool_use_response (tool_name : string) (tool_input : Args)
    (tool_id : string) : Response Args :=
  {| stop_reason := "tool_use";
     content := [ToolUseBlock tool_id tool_name tool_input] |}.

Definition test_input : Args := [("query", "test query")].

(** The run of a test: the generator against a script. *)
Definition run_test (query : string) (history : option string)
    (tools_arg : option (list ToolDef))
    (tool_manager : option (ToolManager Args Script)) (w : Script)
    : (Exn + string) * Run Args ToolDef Script :=
  generate_response generator query history tools_arg tool_manager (start w).

(** The stores of [tests/test_course_search_tool.py]. *)
Definition store_returning (res : CourseSearchTool.SearchResults)
    (link : option string) : CourseSearchTool.Store :=
  {| CourseSearchTool.search := fun _ _ _ => res;
     CourseSearchTool.get_lesson_link := fun _ _ => link |}.

Definition results1 : CourseSearchTool.SearchResults :=
  CourseSearchTool.Matches ["doc1"; "doc2"]
    [ {| CourseSearchTool.course_title := "Course A";
         CourseSearchTool.lesson_number := Some 1%Z |} ;
      {| CourseSearchTool.course_title := "Course B";
         CourseSearchTool.lesson_number := Some 2%Z |} ].

Definition results2 : CourseSearchTool.SearchResults :=
  CourseSearchTool.Matches ["doc3"]
    [ {| CourseSearchTool.course_title := "Course C";
         CourseSearchTool.lesson_number := Some 3%Z |} ].

Definition fresh_tool : CourseSearchTool.Tool :=
  {| CourseSearchTool.last_sources := [] |}.

Definition python_course : CourseSearchTool.ChunkMeta :=
  {| CourseSearchTool.course_title := "Python Course";
     CourseSearchTool.lesson_number := None |}.

Definition lesson_planning : CourseSearchTool.ChunkMeta :=
  {| CourseSearchTool.course_title := "Lesson Planning";
     CourseSearchTool.lesson_number := None |}.

(** The orchestrator of [tests/test_rag_system.py], its collaborators
    mocked. *)
Definition mock_sessions : SessionStore Script :=
  {| get_conversation_history := fun _ _ => None;
     add_exchange := fun _ _ _ w => w |}.

Definition mock_registry : ToolRegistry Args ToolDef Script :=
  {| get_tool_definitions := fun _ => ["search_course_content"];
     executor := mock_tool_manager;
     get_last_sources := fun _ => [];
     reset_sources := fun w => w |}.

Definition rag : RAGSystem Args ToolDef Script :=
  {| ai_generator := generator;
     session_manager := mock_sessions;
     tool_manager_of := mock_registry;
     hyperlink := fun u l => ("<a href='" ++ u ++ "'>" ++ l ++ "</a>")%string |}.

(** Scripts of the tests. *)
Definition direct_answer : Script :=
  {| answers := [inr (make_text_response "Direct answer")]; outcomes := [] |}.

Definition two_rounds : Script :=
  {| answers := [ inr (make_tool_use_response "get_course_outline" test_input "toolu_01") ;
                  inr (make_tool_use_response "search_course_content" test_input "toolu_02") ;
                  inr (make_text_response "Synthesized answer") ];
     outcomes := [inr "tool output"; inr "tool output"] |}.

Definition tool_crash : Script :=
  {| answers := [ inr (make_tool_use_response "search_course_content" test_input "toolu_01") ;
                  inr (make_text_response "Graceful response") ];
     outcomes := [inl "Tool crashed"] |}.

(** A response asking for two tools, the first of which raises. *)
Definition two_blocks : Response Args :=
  {| stop_reason := "tool_use";
     content := [ ToolUseBlock "toolu_01" "get_course_outline" test_input ;
                  TextBlock "and then" ;
                  ToolUseBlock "toolu_02" "search_course_content" test_input ] |}.

Definition first_crashes : Script :=
  {| answers := [inr two_blocks; inr (make_text_response "Graceful response")];
     outcomes := [inl "Tool crashed"; inr "tool output"] |}.

End Fixtures.

(** * Further readings of a trace and further scripts *)

Section TraceReadings.

Variable Args : Type.
Variable ToolDef : Type.

(** The tool executions of a trace, in the order they were made. *)
Fixpoint tool_calls (t : list (Event Args ToolDef))
    : list (string * Args * (string + string)) :=
  match t with
  | [] => []
  | ToolCall name input o :: t' => (name, input, o) :: tool_calls t'
  | ModelCall _ _ :: t' => tool_calls t'
  end.

(** The Tool Result [_execute_tool_calls] builds for a block when
    [tool_manager] is [None]: the lookup of [execute_tool] raises inside the
    [try], and the handler words the exception. *)
Definition no_manager_result (u : string * string * Args) : ToolResult :=
  {| tool_use_id := fst (fst u);
     result_content :=
       "Tool execution error: "
         ++ "'NoneType' object has no attribute 'execute_tool'" |}.

End TraceReadings.

Arguments tool_calls {Args ToolDef}.
Arguments no_manager_result {Args}.

Section DirectAnswerWording.

Variable Args : Type.
Variable ToolDef : Type.
Variable World : Type.

(** The [text] attribute of a block, for the blocks that have one. *)
Definition block_text (b : ContentBlock Args) : option string :=
  match b with
  | TextBlock t => Some t
  | ToolUseBlock _ _ _ => None
  end.

(** The text of the first content block of a response, if there is a first
    block and it has a text. *)
Definition first_block_text (r : Response Args) : option string :=
  match content r with
  | [] => None
  | b :: _ => block_text b
  end.

(** The direct answer as the third testable property words it, for one call
    of [generate_response] from world [w]: whenever the first response does
    not stop for tool use, or no tool manager was passed, the one model
    request is the only call and the text of the response's first content
    block is what is returned. *)
Definition direct_answer_returns_text (self : AIGenerator Args ToolDef World)
    (query : string) (conversation_history : option string)
    (tools_arg : option (list ToolDef))
    (tool_manager : option (ToolManager Args World)) (w : World) : Prop :=
  let p0 := initial_params self query conversation_history tools_arg in
  let run := generate_response self query conversation_history tools_arg
               tool_manager (start w) in
  forall r w',
    messages_create (client self) p0 w = (inr r, w') ->
    returns_at_once tool_manager r ->
    trace (snd run) = [ModelCall p0 (inr r)] /\
    exists t, first_block_text r = Some t /\ fst run = inr t.

End DirectAnswerWording.

Arguments block_text {Args}.
Arguments first_block_text {Args}.
Arguments direct_answer_returns_text {Args ToolDef World}.

Module Scenarios.

Import Fixtures.

(** The backend is down: the first request raises. *)
Definition backend_down : Script :=
  {| answers := [inl "overloaded"]; outcomes := [] |}.

(** The backend answers with an empty content list. *)
Definition empty_reply : Script :=
  {| answers := [inr {| stop_reason := "end_turn"; content := [] |}];
     outcomes := [] |}.

(** The model asks for a tool, its response opening with the tool-use
    block, in a call that was given the catalog but no tool manager. *)
Definition tool_use_without_manager : Script :=
  {| answers := [inr (make_tool_use_response "search_course_content"
                        test_input "toolu_01")];
     outcomes := [] |}.

(** A response that asks for [n] tools at once. *)
Definition ask (n : nat) : Response Args :=
  {| stop_reason := "tool_use";
     content := repeat (ToolUseBlock "toolu_01" "search_course_content"
                          test_input) n |}.

(** A backend that asks for [n] tools on the opening request and answers
    in text once it is sent anything longer. *)
Definition eager_client (n : nat) : Client Args ToolDef unit :=
  {| messages_create := fun p w =>
       (if Nat.eqb (length (messages p)) 1
        then inr (ask n)
        else inr (make_text_response "done"),
        w) |}.

(** A tool manager whose tools always return. *)
Definition steady_tool_manager : ToolManager Args unit :=
  {| execute_tool := fun _ _ w => (inr "tool output", w) |}.

Definition eager_generator (n : nat) : AIGenerator Args ToolDef unit :=
  {| client := eager_client n; gen_model := "claude-test" |}.

End Scenarios.

(** * Properties of the controller *)

Section ControllerFacts.

Context {Args ToolDef World : Type}.

Implicit Types (self : AIGenerator Args ToolDef World).
Implicit Types (tm : ToolManager Args World).
Implicit Types (tool_manager : option (ToolManager Args World)).
Implicit Types (s : Run Args ToolDef World).
Implicit Types (p : ApiParams Args ToolDef).
Implicit Types (r : Response Args).
Implicit Types (bs : list (ContentBlock Args)).
Implicit Types (uses : list (string * string * Args)).
Implicit Types (outs : list (string + string)).
Implicit Types (evs : list (Event Args ToolDef)).

(** *** The loop over the content blocks *)

Lemma tool_outcomes_length tm uses (w : World) :
  length (fst (tool_outcomes tm uses w)) = length uses.
Proof.
  revert w; induction uses as [|[[id name] input] uses IH]; intros w; simpl.
  - reflexivity.
  - destruct (execute_tool tm name input w) as [o w1].
    specialize (IH w1).
    destruct (tool_outcomes tm uses w1) as [outs w2]; simpl in *.
    now rewrite IH.
Qed.

Lemma for_each_block_run tm bs (acc : list ToolResult * bool) s :
  for_each_block (Some tm) bs acc s =
    (inr (fst acc ++ tool_results_for (tool_uses bs)
                       (fst (tool_outcomes tm (tool_uses bs) (world s))),
          snd acc || existsb raised
                       (fst (tool_outcomes tm (tool_uses bs) (world s)))),
     {| world := snd (tool_outcomes tm (tool_uses bs) (world s));
        trace := trace s ++ tool_events (tool_uses bs)
                              (fst (tool_outcomes tm (tool_uses bs) (world s))) |}).
Proof.
  revert acc s; induction bs as [|b bs IH]; intros [results flag] [w t]; simpl.
  - now rewrite !app_nil_r, orb_false_r.
  - destruct b as [text|id name input]; simpl.
    + unfold bind, ret; simpl. now rewrite IH.
    + unfold bind, try_except, ret; simpl.
      destruct (execute_tool tm name input w) as [[msg|text] w1]; simpl;
        rewrite IH; simpl;
        destruct (tool_outcomes tm (tool_uses bs) w1) as [outs w2]; simpl;
        rewrite <- !app_assoc; simpl.
      * now rewrite orb_true_r.
      * reflexivity.
Qed.

Lemma first_text_run r s :
  first_text r s = (first_text_value r, s).
Proof.
  unfold first_text, first_text_value.
  destruct (content r) as [|[t|id name input] rest]; reflexivity.
Qed.

Lemma first_text_value_exn r e :
  first_text_value r = inl e ->
  e = IndexError \/ e = AttributeError "ToolUseBlock" "text".
Proof.
  unfold first_text_value.
  destruct (content r) as [|[t|id name input] rest]; intros H;
    inversion H; auto.
Qed.

(** *** The loop over the rounds *)

(** One iteration, unfolded: the backend's answer decides. *)
Lemma tool_rounds_step self tool_manager n p s :
  tool_rounds self tool_manager (S n) p s =
    let s1 := {| world := snd (messages_create (client self) p (world s));
                 trace := trace s ++
                   [ModelCall p (fst (messages_create (client self) p (world s)))] |} in
    match fst (messages_create (client self) p (world s)) with
    | inl msg => (inl (BackendFailure msg), s1)
    | inr r =>
        if negb (stop_reason r =? "tool_use")
           || negb (opt_truthy (fun _ => true) tool_manager)
        then
          match first_text_value r with
          | inl e => (inl e, s1)
          | inr t => (inr (Returned t), s1)
          end
        else
          match _execute_tool_calls r tool_manager s1 with
          | (inl e, s2) => (inl e, s2)
          | (inr (tool_results, had_error), s2) =>
              let msgs := messages p
                            ++ [ {| role := assistant;
                                    msg_content := Blocks (content r) |} ;
                                 {| role := user;
                                    msg_content := Results tool_results |} ] in
              if had_error then (inr (FellThrough msgs), s2)
              else tool_rounds self tool_manager n (with_messages p msgs) s2
          end
    end.
Proof.
  simpl. unfold bind at 1. unfold create.
  destruct (messages_create (client self) p (world s)) as [[msg|r] w]; simpl.
  - reflexivity.
  - destruct (negb (stop_reason r =? "tool_use")
              || negb (opt_truthy (fun _ => true) tool_manager)).
    + unfold bind, ret. rewrite first_text_run.
      destruct (first_text_value r); reflexivity.
    + unfold bind at 1.
      destruct (_execute_tool_calls r tool_manager _) as [[e|[results flag]] s2];
        [reflexivity | destruct flag; reflexivity].
Qed.

Lemma tool_rounds_trace self tool_manager n p s :
  exists evs,
    trace (snd (tool_rounds self tool_manager n p s)) = trace s ++ evs /\
    loop_trace tool_manager n p evs (fst (tool_rounds self tool_manager n p s)).
Proof.
  revert p s; induction n as [|n IH]; intros p s.
  - exists []. simpl. rewrite app_nil_r. split; [reflexivity | constructor].
  - rewrite tool_rounds_step; cbv zeta.
    destruct (messages_create (client self) p (world s)) as [[msg|r] w]; simpl.
    + eexists; split; [reflexivity | constructor].
    + destruct (String.eqb_spec (stop_reason r) "tool_use") as [Hstop|Hstop];
        simpl.
      * destruct tool_manager as [tm|]; simpl.
        -- unfold _execute_tool_calls.
           rewrite for_each_block_run; simpl.
           pose proof (tool_outcomes_length tm (tool_uses (content r)) w) as Hlen.
           destruct (tool_outcomes tm (tool_uses (content r)) w) as [outs w'];
             simpl in *.
           destruct (existsb raised outs) eqn:Herr; simpl.
           ++ eexists; split.
              ** rewrite <- app_assoc. reflexivity.
              ** apply lt_break; auto; discriminate.
           ++ match goal with
              | |- context [tool_rounds self (Some tm) n ?p' ?s'] =>
                  destruct (IH p' s') as (rest & Htr & Hshape)
              end.
              exists (ModelCall p (inr r)
                        :: tool_events (tool_uses (content r)) outs ++ rest).
              split.
              ** rewrite Htr; simpl. now rewrite <- !app_assoc.
              ** apply lt_round; auto; discriminate.
        -- destruct (first_text_value r) as [e|t] eqn:Htext; simpl;
             eexists; (split; [reflexivity|]).
           ++ apply lt_return_raises; auto.
              ** right; reflexivity.
              ** eapply first_text_value_exn; eauto.
           ++ apply lt_return; auto. right; reflexivity.
      * destruct (first_text_value r) as [e|t] eqn:Htext; simpl;
          eexists; (split; [reflexivity|]).
        -- apply lt_return_raises; auto.
           ++ left; assumption.
           ++ eapply first_text_value_exn; eauto.
        -- apply lt_return; auto. left; assumption.
Qed.

Lemma generate_response_trace self query history tools_arg tool_manager s :
  exists evs,
    trace (snd (generate_response self query history tools_arg tool_manager s))
      = trace s ++ evs /\
    response_trace self (system_content_of history) tool_manager
      (initial_params self query history tools_arg) evs
      (fst (generate_response self query history tools_arg tool_manager s)).
Proof.
  unfold generate_response, bind.
  destruct (tool_rounds_trace self tool_manager MAX_TOOL_ROUNDS
              (initial_params self query history tools_arg) s)
    as (evs & Htr & Hshape).
  destruct (tool_rounds self tool_manager MAX_TOOL_ROUNDS
              (initial_params self query history tools_arg) s)
    as [[e|[t|msgs]] s1]; simpl in *.
  - exists evs; split; [assumption | now apply rt_raised].
  - exists evs; split; [assumption | now apply rt_returned].
  - unfold create.
    destruct (messages_create (client self)
                (base_with self msgs (system_content_of history)) (world s1))
      as [[msg|r] w]; simpl.
    + eexists; split.
      * rewrite Htr, <- app_assoc; reflexivity.
      * eapply rt_synthesis; eauto.
    + rewrite first_text_run; simpl.
      eexists; split.
      * rewrite Htr, <- app_assoc; reflexivity.
      * eapply rt_synthesis; eauto.
Qed.

(** *** Pairing directives with outcomes *)

Lemma tool_results_ids uses outs :
  length outs = length uses ->
  map tool_use_id (tool_results_for uses outs) = map (fun u => fst (fst u)) uses.
Proof.
  revert outs; induction uses as [|[[id name] input] uses IH];
    intros [|o outs] Hlen; simpl in *; try discriminate; try reflexivity.
  f_equal.
  - now destruct o.
  - apply IH. now injection Hlen.
Qed.

Lemma tool_events_calls uses outs :
  length outs = length uses ->
  Forall2 (fun u e => exists o,
             e = ToolCall (snd (fst u)) (snd u) o :> Event Args ToolDef)
          uses (tool_events uses outs).
Proof.
  revert outs; induction uses as [|[[id name] input] uses IH];
    intros [|o outs] Hlen; simpl in *; try discriminate; constructor.
  - now exists o.
  - apply IH. now injection Hlen.
Qed.

Lemma tool_events_are_tool_calls uses outs :
  Forall is_tool_call (tool_events (ToolDef := ToolDef) uses outs).
Proof.
  revert outs; induction uses as [|[[id name] input] uses IH];
    intros [|o outs]; simpl; constructor; simpl; auto.
Qed.

Lemma model_calls_app evs1 evs2 :
  model_calls (evs1 ++ evs2) = model_calls evs1 ++ model_calls evs2.
Proof.
  induction evs1 as [|[p a|name input o] evs1 IH]; simpl; congruence.
Qed.

Lemma model_calls_tool_events uses outs :
  model_calls (tool_events (ToolDef := ToolDef) uses outs) = [].
Proof.
  revert outs; induction uses as [|[[id name] input] uses IH];
    intros [|o outs]; simpl; auto.
Qed.

Lemma model_calls_In evs p a :
  In (p, a) (model_calls evs) <-> In (ModelCall p a) evs.
Proof.
  induction evs as [|[p' a'|name input o] evs IH]; simpl.
  - tauto.
  - rewrite IH. split; intros [H|H]; auto; left; congruence.
  - rewrite IH. split; [auto | intros [H|H]; [discriminate | assumption]].
Qed.

(** C10.  [_execute_tool_calls] goes through every tool-use block of the
    response whatever the earlier executions did: the calls it makes are
    one per tool-use block, in block order and each on the world the
    previous one left, also after one of them has raised; the results it
    returns are one Tool Result per tool-use block, in block order and
    under the block's id, an outcome that raised giving the error text;
    and [had_error] is true exactly when some execution raised. *)
Theorem execute_tool_calls_runs_every_block tm r s :
  let uses := tool_uses (content r) in
  let outs := fst (tool_outcomes tm uses (world s)) in
  let run := _execute_tool_calls r (Some tm) s in
  length outs = length uses /\
  trace (snd run) = trace s ++ tool_events uses outs /\
  Forall2 (fun u e => exists o,
             e = ToolCall (snd (fst u)) (snd u) o :> Event Args ToolDef)
          uses (tool_events uses outs) /\
  fst run = inr (tool_results_for uses outs, existsb raised outs) /\
  map tool_use_id (tool_results_for uses outs) = map (fun u => fst (fst u)) uses /\
  length (tool_results_for uses outs) = length uses /\
  (existsb raised outs = true <-> exists msg, In (inl msg) outs).
Proof.
  intros uses outs run.
  assert (Hlen : length outs = length uses) by apply tool_outcomes_length.
  assert (Hids := tool_results_ids uses outs Hlen).
  subst run. unfold _execute_tool_calls. rewrite for_each_block_run; simpl.
  fold uses. fold outs.
  repeat split; auto using tool_events_calls.
  - rewrite <- (length_map tool_use_id), Hids. apply length_map.
  - intros H. apply existsb_exists in H as ([msg|text] & Hin & Hr);
      [eauto | discriminate].
  - intros [msg Hin]. apply existsb_exists. now exists (inl msg).
Qed.

(** *** Counting the model requests *)

Lemma loop_trace_model_calls tool_manager n p evs exit :
  loop_trace tool_manager n p evs exit -> length (model_calls evs) <= n.
Proof.
  induction 1; simpl; try lia.
  - rewrite model_calls_tool_events. simpl. lia.
  - rewrite model_calls_app, model_calls_tool_events. simpl. lia.
Qed.

Lemma response_trace_model_calls self sys tool_manager p0 evs out :
  response_trace self sys tool_manager p0 evs out ->
  length (model_calls evs) <= MAX_TOOL_ROUNDS + 1.
Proof.
  destruct 1 as [evs t H|evs e H|evs msgs a out H Hout];
    apply loop_trace_model_calls in H.
  - lia.
  - lia.
  - rewrite model_calls_app, length_app. simpl length. lia.
Qed.

(** C1.  A call of [generate_response] issues at most
    [MAX_TOOL_ROUNDS + 1] model requests, that is 3, whatever the backend
    answers and whatever the tools do: the trace gains no more than that
    many [ModelCall] events. *)
Theorem generate_response_request_bound self query history tools_arg
    tool_manager s :
  length (model_calls
            (trace (snd (generate_response self query history tools_arg
                           tool_manager s))))
  <= length (model_calls (trace s)) + (MAX_TOOL_ROUNDS + 1) /\
  MAX_TOOL_ROUNDS + 1 = 3.
Proof.
  split; [|reflexivity].
  destruct (generate_response_trace self query history tools_arg
              tool_manager s) as (evs & Htr & Hshape).
  rewrite Htr, model_calls_app, length_app.
  apply response_trace_model_calls in Hshape. lia.
Qed.

(** *** The return inside the loop *)

(** C3, as the code has it.  When the first response does not stop for
    tool use, or no tool manager was passed, the one model request is the
    only call in the trace (no tool call, no second request), and the text
    of the response's first content block is returned verbatim when that
    block is a text block.  In every case the outcome of the call is the
    value of [response.content[0].text] on that response. *)
Theorem generate_response_direct_answer self query history tools_arg
    tool_manager (w w' : World) r :
  messages_create (client self)
    (initial_params self query history tools_arg) w = (inr r, w') ->
  returns_at_once tool_manager r ->
  generate_response self query history tools_arg tool_manager (start w)
    = (first_text_value r,
       {| world := w';
          trace := [ModelCall (initial_params self query history tools_arg)
                              (inr r)] |}) /\
  (forall t rest,
      content r = TextBlock t :: rest ->
      fst (generate_response self query history tools_arg tool_manager
             (start w)) = inr t).
Proof.
  intros Hcreate Hret.
  assert (Hrun :
    generate_response self query history tools_arg tool_manager (start w)
    = (first_text_value r,
       {| world := w';
          trace := [ModelCall (initial_params self query history tools_arg)
                              (inr r)] |})).
  { unfold generate_response, bind, MAX_TOOL_ROUNDS.
    rewrite tool_rounds_step; cbv zeta. simpl world. rewrite Hcreate; simpl.
    assert (Hcond : negb (stop_reason r =? "tool_use")
                    || negb (opt_truthy (fun _ => true) tool_manager) = true).
    { destruct Hret as [Hstop|Hnone].
      - apply String.eqb_neq in Hstop. now rewrite Hstop.
      - subst tool_manager. apply orb_true_r. }
    rewrite Hcond.
    destruct (first_text_value r); reflexivity. }
  split; [exact Hrun|].
  intros t rest Hcontent. rewrite Hrun; simpl.
  unfold first_text_value. now rewrite Hcontent.
Qed.

(** *** What every request carries *)

Lemma loop_trace_requests tool_manager n p evs exit :
  loop_trace tool_manager n p evs exit ->
  forall p' a, In (ModelCall p' a) evs ->
    system p' = system p /\ tools p' = tools p /\
    tool_choice p' = tool_choice p /\ model p' = model p /\
    temperature p' = temperature p /\ max_tokens p' = max_tokens p.
Proof.
  assert (Htools : forall uses outs p' a,
             ~ In (ModelCall p' a) (tool_events (ToolDef := ToolDef) uses outs)).
  { intros uses outs p' a Hin.
    pose proof (tool_events_are_tool_calls uses outs) as Hall.
    rewrite Forall_forall in Hall. exact (Hall _ Hin). }
  induction 1; intros p' a Hin; simpl in Hin.
  - contradiction.
  - destruct Hin as [Hin|[]]. injection Hin as <- _. tauto.
  - destruct Hin as [Hin|[]]. injection Hin as <- _. tauto.
  - destruct Hin as [Hin|[]]. injection Hin as <- _. tauto.
  - destruct Hin as [Hin|Hin]; [injection Hin as <- _; tauto|].
    now apply Htools in Hin.
  - destruct Hin as [Hin|Hin]; [injection Hin as <- _; tauto|].
    apply in_app_or in Hin as [Hin|Hin]; [now apply Htools in Hin|].
    apply IHloop_trace in Hin. exact Hin.
Qed.

Lemma system_content_of_history (h : string) :
  system_content_of (Some h) =
    (SYSTEM_PROMPT
       ++ (if str_truthy h
           then nl ++ nl ++ "Previous conversation:" ++ nl
           else EmptyString)
       ++ h)%string.
Proof.
  assert (Hnil : forall x : string, (x ++ EmptyString)%string = x).
  { induction x as [|c x IH]; simpl; congruence. }
  unfold system_content_of.
  destruct h as [|c h]; cbn [opt_truthy str_truthy].
  - cbn [append]. now rewrite Hnil.
  - reflexivity.
Qed.

Lemma initial_params_system self query history tools_arg :
  system (initial_params self query history tools_arg)
    = system_content_of history.
Proof.
  unfold initial_params.
  destruct tools_arg as [[|d ds]|]; reflexivity.
Qed.

(** C9.  Every model request of a call of [generate_response] carries the
    same system directive, which is [SYSTEM_PROMPT] alone when no history
    is passed, and otherwise [SYSTEM_PROMPT] followed by the history text
    unchanged, the two being separated by the line
    [Previous conversation:] when the history is not the empty string. *)
Theorem generate_response_system_directive self query history tools_arg
    tool_manager (w : World) :
  (forall p a,
      In (ModelCall p a)
         (trace (snd (generate_response self query history tools_arg
                        tool_manager (start w)))) ->
      system p = system_content_of history) /\
  (history = None -> system_content_of history = SYSTEM_PROMPT) /\
  (forall h, history = Some h ->
      system_content_of history =
        (SYSTEM_PROMPT
           ++ (if str_truthy h
               then nl ++ nl ++ "Previous conversation:" ++ nl
               else EmptyString)
           ++ h)%string).
Proof.
  split; [|split].
  - intros p a Hin.
    destruct (generate_response_trace self query history tools_arg
                tool_manager (start w)) as (evs & Htr & Hshape).
    rewrite Htr in Hin; simpl in Hin.
    destruct Hshape as [evs t H|evs e H|evs msgs a' out H Hout].
    + rewrite <- (initial_params_system self query history tools_arg).
      eapply loop_trace_requests; eauto.
    + rewrite <- (initial_params_system self query history tools_arg).
      eapply loop_trace_requests; eauto.
    + apply in_app_or in Hin as [Hin|[Hin|[]]].
      * rewrite <- (initial_params_system self query history tools_arg).
        eapply loop_trace_requests; eauto.
      * injection Hin as <- _. reflexivity.
  - intros ->. reflexivity.
  - intros h ->. apply system_content_of_history.
Qed.

(** *** The tool catalog *)

Lemma generate_response_after_loop self query history tools_arg
    tool_manager s :
  let p0 := initial_params self query history tools_arg in
  let loop := tool_rounds self tool_manager MAX_TOOL_ROUNDS p0 s in
  let run := generate_response self query history tools_arg tool_manager s in
  (forall msgs, fst loop = inr (FellThrough msgs) ->
     exists a,
       trace (snd run) = trace (snd loop) ++
         [ModelCall (base_with self msgs (system_content_of history)) a] /\
       fst run = match a with
                 | inl m => inl (BackendFailure m)
                 | inr r => first_text_value r
                 end) /\
  ((forall msgs, fst loop <> inr (FellThrough msgs)) -> snd run = snd loop).
Proof.
  intros p0 loop run. subst run. unfold generate_response, bind.
  fold p0. fold loop.
  destruct loop as [[e|[t|msgs]] s1]; simpl; split.
  - discriminate.
  - reflexivity.
  - discriminate.
  - reflexivity.
  - intros msgs' [= <-]. unfold create.
    destruct (messages_create (client self)
                (base_with self msgs (system_content_of history)) (world s1))
      as [[m|r] w1]; simpl.
    + eexists; split; reflexivity.
    + rewrite first_text_run. eexists; split; reflexivity.
  - intros H. now destruct (H msgs).
Qed.

(** C5, as the code has it.  When the catalog passed is not empty, every
    request the loop issues carries it together with the [auto] tool
    choice, and when the loop is left without a [return] (rounds exhausted
    or a tool failure) exactly one more request follows, with the
    accumulated messages and neither [tools] nor [tool_choice]. *)
Theorem nonempty_catalog_policy self query history tools_arg tool_manager
    (w : World) catalog :
  tools_arg = Some catalog ->
  catalog <> [] ->
  catalog_policy self query history tools_arg tool_manager w catalog.
Proof.
  intros -> Hne. unfold catalog_policy; cbv zeta.
  destruct (generate_response_after_loop self query history (Some catalog)
              tool_manager (start w)) as [Hsyn Hret]; cbv zeta in *.
  repeat split.
  - destruct (tool_rounds_trace self tool_manager MAX_TOOL_ROUNDS
                (initial_params self query history (Some catalog)) (start w))
      as (evs & Htr & Hshape).
    rewrite Htr in H; simpl in H.
    destruct (loop_trace_requests _ _ _ _ _ Hshape p a H) as (_ & Ht & _).
    rewrite Ht. destruct catalog; [contradiction | reflexivity].
  - destruct (tool_rounds_trace self tool_manager MAX_TOOL_ROUNDS
                (initial_params self query history (Some catalog)) (start w))
      as (evs & Htr & Hshape).
    rewrite Htr in H; simpl in H.
    destruct (loop_trace_requests _ _ _ _ _ Hshape p a H) as (_ & _ & Hc & _).
    rewrite Hc. destruct catalog; [contradiction | reflexivity].
  - intros msgs Hexit. destruct (Hsyn msgs Hexit) as (a & Htr & _).
    eexists; exists a. split; [exact Htr | repeat split].
  - intros Hexit. now rewrite (Hret Hexit).
Qed.

(** With no catalog, or an empty one, no request carries [tools] or
    [tool_choice]. *)
Lemma empty_catalog_requests self query history tools_arg tool_manager
    (w : World) p a :
  opt_truthy list_truthy tools_arg = false ->
  In (ModelCall p a)
     (trace (snd (generate_response self query history tools_arg
                    tool_manager (start w)))) ->
  without_catalog p.
Proof.
  intros Hfalsy Hin.
  assert (H0 : without_catalog (initial_params self query history tools_arg)).
  { unfold initial_params. rewrite Hfalsy. split; reflexivity. }
  destruct (generate_response_trace self query history tools_arg
              tool_manager (start w)) as (evs & Htr & Hshape).
  rewrite Htr in Hin; simpl in Hin.
  assert (Hloop : forall evs' exit,
             loop_trace tool_manager MAX_TOOL_ROUNDS
               (initial_params self query history tools_arg) evs' exit ->
             In (ModelCall p a) evs' -> without_catalog p).
  { intros evs' exit Hl Hin'.
    destruct (loop_trace_requests _ _ _ _ _ Hl p a Hin') as (_ & Ht & Hc & _).
    destruct H0 as [H1 H2]. split; congruence. }
  destruct Hshape as [evs t H|evs e H|evs msgs a' out H Hout]; eauto.
  apply in_app_or in Hin as [Hin|[Hin|[]]]; eauto.
  injection Hin as <- _. split; reflexivity.
Qed.

(** *** The message sequence *)

Lemma loop_threaded tool_manager n p evs exit :
  loop_trace tool_manager n p evs exit ->
  forall after,
    (forall msgs, exit = inr (FellThrough msgs) -> threaded msgs after) ->
    ((forall msgs, exit <> inr (FellThrough msgs)) -> after = []) ->
    threaded (messages p) (evs ++ after).
Proof.
  induction 1; intros after Hfell Hret; simpl.
  - now apply Hfell.
  - rewrite Hret by discriminate. constructor.
  - rewrite Hret by discriminate. constructor.
  - rewrite Hret by discriminate. constructor.
  - apply th_next; auto.
  - rewrite <- app_assoc. apply th_next; auto.
Qed.

Lemma threaded_head (msgs : list (Message Args)) (p : ApiParams Args ToolDef)
    a rest :
  threaded msgs (ModelCall p a :: rest) -> messages p = msgs.
Proof. inversion 1; reflexivity. Qed.

(** A threaded trace opens with a model request, if it is not empty. *)
Lemma threaded_opens (msgs : list (Message Args)) evs :
  threaded msgs evs ->
  evs = [] \/ exists p a rest, evs = ModelCall p a :: rest.
Proof. destruct 1; eauto. Qed.

(** Where the first model request of a list lies is determined. *)
Lemma first_model_call_unique evs1 evs2 rest1 rest2
    (p1 p2 : ApiParams Args ToolDef) a1 a2 :
  Forall is_tool_call evs1 ->
  Forall is_tool_call evs2 ->
  evs1 ++ ModelCall p1 a1 :: rest1 = evs2 ++ ModelCall p2 a2 :: rest2 ->
  evs1 = evs2 /\ p1 = p2 /\ a1 = a2 /\ rest1 = rest2.
Proof.
  intros H1; revert evs2; induction H1 as [|e evs1 He H1 IH];
    intros [|e' evs2] H2 Heq; simpl in Heq.
  - injection Heq as -> -> ->. auto.
  - injection Heq as <- _. inversion H2 as [|? ? Hbad]. destruct Hbad.
  - injection Heq as -> _. destruct He.
  - injection Heq as <- Heq. apply Forall_inv_tail in H2.
    destruct (IH _ H2 Heq) as (-> & -> & -> & ->). auto.
Qed.

(** A model request that follows tool calls lies after them. *)
Lemma model_call_after_tool_calls evs rest pre
    (p : ApiParams Args ToolDef) a tail :
  Forall is_tool_call evs ->
  evs ++ rest = pre ++ ModelCall p a :: tail ->
  exists pre', pre = evs ++ pre' /\ rest = pre' ++ ModelCall p a :: tail.
Proof.
  intros H; revert pre; induction H as [|e evs He H IH]; intros pre Heq;
    simpl in Heq.
  - exists pre. auto.
  - destruct pre as [|e' pre]; simpl in Heq.
    + injection Heq as -> _. destruct He.
    + injection Heq as <- Heq. destruct (IH _ Heq) as (pre' & -> & ->).
      exists pre'. auto.
Qed.

Lemma threaded_consecutive (msgs : list (Message Args)) evs :
  threaded msgs evs ->
  forall pre p1 a1 mid p2 a2 post,
    evs = pre ++ ModelCall p1 a1 :: mid ++ ModelCall p2 a2 :: post ->
    Forall is_tool_call mid ->
    exists r outs,
      a1 = inr r /\
      length outs = length (tool_uses (content r)) /\
      mid = tool_events (tool_uses (content r)) outs /\
      messages p2 = next_messages (messages p1) r outs.
Proof.
  induction 1 as [msgs|p a|p r outs rest Hlen Hrest IH];
    intros pre p1 a1 mid p2 a2 post Heq Hmid.
  - destruct pre; discriminate.
  - destruct pre as [|e [|e' pre]]; simpl in Heq.
    + injection Heq as _ _ Heq. destruct mid; discriminate.
    + discriminate.
    + discriminate.
  - pose proof (tool_events_are_tool_calls (tool_uses (content r)) outs)
      as Htools.
    destruct pre as [|e pre]; simpl in Heq.
    + injection Heq as <- <- Heq.
      destruct (threaded_opens _ _ Hrest) as [->|(p' & a' & rest' & ->)].
      * rewrite app_nil_r in Heq. rewrite Heq in Htools.
        apply Forall_app in Htools as [_ Hbad].
        inversion Hbad as [|? ? Hcall]. destruct Hcall.
      * destruct (first_model_call_unique _ _ _ _ _ _ _ _ Htools Hmid Heq)
          as (<- & -> & -> & ->).
        exists r, outs. repeat split; auto.
        now apply threaded_head in Hrest.
    + injection Heq as _ Heq.
      destruct (model_call_after_tool_calls _ _ _ _ _ _ Htools Heq)
        as (pre' & -> & Hrest').
      eapply IH; eauto.
Qed.

Lemma alternates_from_app expected (l l' : list (Message Args)) :
  alternates_from expected (l ++ l') =
    alternates_from expected l
    && alternates_from (if Nat.even (length l) then expected
                        else other expected) l'.
Proof.
  revert expected; induction l as [|m l IH]; intros expected.
  - reflexivity.
  - cbn [app alternates_from length]. rewrite IH, <- andb_assoc.
    do 2 f_equal.
    rewrite Nat.even_succ. unfold Nat.odd.
    destruct (Nat.even (length l)); destruct expected; reflexivity.
Qed.

Lemma opens_and_alternates_next query (msgs : list (Message Args)) r outs :
  opens_and_alternates query msgs ->
  opens_and_alternates query (next_messages msgs r outs).
Proof.
  intros ([tail ->] & Halt & Hodd). unfold next_messages. repeat split.
  - eexists. reflexivity.
  - rewrite alternates_from_app, Halt, Hodd. reflexivity.
  - rewrite length_app, Nat.add_comm. exact Hodd.
Qed.

Lemma threaded_alternates query (msgs : list (Message Args)) evs :
  threaded msgs evs ->
  opens_and_alternates query msgs ->
  forall (p : ApiParams Args ToolDef) a,
    In (ModelCall p a) evs -> opens_and_alternates query (messages p).
Proof.
  induction 1 as [msgs|p a|p r outs rest Hlen Hrest IH];
    intros Hwf p' a' Hin; simpl in Hin.
  - contradiction.
  - destruct Hin as [[= <- <-]|[]]. exact Hwf.
  - destruct Hin as [[= <- <-]|Hin]; [exact Hwf|].
    apply in_app_or in Hin as [Hin|Hin].
    + pose proof (tool_events_are_tool_calls (tool_uses (content r)) outs)
        as Htools.
      rewrite Forall_forall in Htools. destruct (Htools _ Hin).
    + apply (IH (opens_and_alternates_next query _ r outs Hwf) p' a' Hin).
Qed.

Lemma generate_response_threaded self query history tools_arg
    tool_manager (w : World) :
  threaded [ {| role := user; msg_content := Text query |} ]
    (trace (snd (generate_response self query history tools_arg
                   tool_manager (start w)))).
Proof.
  destruct (generate_response_trace self query history tools_arg
              tool_manager (start w)) as (evs & Htr & Hshape).
  rewrite Htr; simpl.
  assert (H0 : messages (initial_params self query history tools_arg)
               = [ {| role := user; msg_content := Text query |} ]).
  { unfold initial_params. destruct tools_arg as [[|d ds]|]; reflexivity. }
  rewrite <- H0.
  destruct Hshape as [evs t H|evs e H|evs msgs a out H Hout].
  - rewrite <- (app_nil_r evs).
    apply (loop_threaded _ _ _ _ _ H); [discriminate | reflexivity].
  - rewrite <- (app_nil_r evs).
    apply (loop_threaded _ _ _ _ _ H); [discriminate | reflexivity].
  - apply (loop_threaded _ _ _ _ _ H).
    + intros msgs' [= <-].
      apply (th_last (base_with self msgs (system_content_of history)) a).
    + intros Hne. now destruct (Hne msgs).
Qed.

(** C4.  Between one model request and the next lie the tool calls of one
    round, one per tool-use block of the response to the first request, and
    the round appends exactly two messages to the sequence: the assistant
    message holding the blocks of that response, then one user message
    holding the round's Tool Results, which are one per tool-use block of
    that assistant message, in block order and under the block's id.
    Hence every request's sequence opens with the query as a user message
    and alternates user, assistant, user, ... *)
Theorem generate_response_message_threading self query history tools_arg
    tool_manager (w : World) :
  let evs := trace (snd (generate_response self query history tools_arg
                           tool_manager (start w))) in
  (forall pre p1 a1 mid p2 a2 post,
      evs = pre ++ ModelCall p1 a1 :: mid ++ ModelCall p2 a2 :: post ->
      Forall is_tool_call mid ->
      exists r outs,
        a1 = inr r /\
        mid = tool_events (tool_uses (content r)) outs /\
        messages p2 =
          messages p1
            ++ [ {| role := assistant; msg_content := Blocks (content r) |} ;
                 {| role := user;
                    msg_content :=
                      Results (tool_results_for (tool_uses (content r)) outs) |} ] /\
        length outs = length (tool_uses (content r)) /\
        length (tool_results_for (tool_uses (content r)) outs)
          = length (tool_uses (content r)) /\
        map tool_use_id (tool_results_for (tool_uses (content r)) outs)
          = map (fun u => fst (fst u)) (tool_uses (content r))) /\
  (forall p a,
      In (ModelCall p a) evs ->
      (exists tail,
          messages p = {| role := user; msg_content := Text query |} :: tail) /\
      alternates_from user (messages p) = true).
Proof.
  intros evs.
  pose proof (generate_response_threaded self query history tools_arg
                tool_manager w) as Hth.
  fold evs in Hth. split.
  - intros pre p1 a1 mid p2 a2 post Heq Hmid.
    destruct (threaded_consecutive _ _ Hth pre p1 a1 mid p2 a2 post Heq Hmid)
      as (r & outs & Ha & Hlen & Hevs & Hmsgs).
    exists r, outs. pose proof (tool_results_ids _ _ Hlen) as Hids.
    repeat split; auto.
    rewrite <- (length_map tool_use_id), Hids. apply length_map.
  - intros p a Hin.
    assert (H0 : opens_and_alternates (Args := Args) query
                   [ {| role := user; msg_content := Text query |} ]).
    { repeat split. now exists []. }
    destruct (threaded_alternates query _ _ Hth H0 p a Hin) as (Ho & Ha & _).
    split; assumption.
Qed.

(** *** A tool that raises *)

Lemma tool_uses_In bs id name (input : Args) :
  In (id, name, input) (tool_uses bs) -> In (ToolUseBlock id name input) bs.
Proof.
  induction bs as [|[t|id' name' input'] bs IH]; simpl; intros H.
  - contradiction.
  - right; auto.
  - destruct H as [[= -> -> ->]|H]; auto.
Qed.

Lemma tool_events_In uses outs name input o :
  In (ToolCall name input o) (tool_events (ToolDef := ToolDef) uses outs) ->
  exists pre post id,
    tool_events (ToolDef := ToolDef) uses outs
      = pre ++ ToolCall name input o :: post /\
    Forall is_tool_call post /\
    In (id, name, input) uses /\
    In (result_for id o) (tool_results_for uses outs) /\
    In o outs.
Proof.
  revert outs; induction uses as [|[[id' name'] input'] uses IH];
    intros [|o' outs]; simpl; try contradiction.
  intros [[= -> -> ->]|Hin].
  - exists [], (tool_events uses outs), id'. simpl.
    repeat split; auto using tool_events_are_tool_calls.
  - destruct (IH outs Hin) as (pre & post & id & Heq & Hpost & Hu & Hr & Ho).
    exists (ToolCall name' input' o' :: pre), post, id.
    rewrite Heq. repeat split; auto.
Qed.





End ControllerFacts.

(** * Properties of the retrieval tool *)

Section StringFacts.

Lemma prefix_through (needle s t : string) (c : ascii) :
  has_char c needle = false ->
  prefix needle (s ++ String c t) = prefix needle s.
Proof.
  revert needle; induction s as [|b s IH]; intros [|a needle] Hc; simpl in *;
    try reflexivity.
  - apply orb_false_elim in Hc as [Hac Hc].
    destruct (ascii_dec a c) as [->|Hne]; [|reflexivity].
    now rewrite Ascii.eqb_refl in Hac.
  - apply orb_false_elim in Hc as [Hac Hc].
    destruct (ascii_dec a b); [now apply IH | reflexivity].
Qed.

Lemma str_in_through (needle s t : string) (c : ascii) :
  needle <> EmptyString ->
  has_char c needle = false ->
  str_in needle (s ++ String c t) = str_in needle s || str_in needle t.
Proof.
  intros Hne Hc.
  assert (Hempty : prefix needle EmptyString = false)
    by (destruct needle; [congruence | reflexivity]).
  induction s as [|b s IH].
  - pose proof (prefix_through needle EmptyString t c Hc) as Hct.
    cbn [append] in Hct. cbn [append str_in].
    rewrite Hct, Hempty. reflexivity.
  - change (String b s ++ String c t)%string
      with (String b (s ++ String c t)).
    cbn [str_in].
    change (String b (s ++ String c t))
      with (String b s ++ String c t)%string.
    rewrite (prefix_through needle (String b s) t c Hc), IH.
    destruct (prefix needle (String b s)); reflexivity.
Qed.

End StringFacts.

Section RetrievalToolFacts.

Import CourseSearchTool.

Lemma string_app_assoc (a b c : string) :
  ((a ++ b) ++ c = a ++ (b ++ c))%string.
Proof. induction a as [|x a IH]; simpl; congruence. Qed.

Lemma chunk_header_no_lesson m :
  lesson_number m = None ->
  chunk_header m = ("[" ++ course_title m ++ "]")%string.
Proof. intros H. unfold chunk_header, chunk_label. now rewrite H. Qed.

(** C8, as the model has it.  Without lesson metadata the header of a
    chunk is the course title between brackets, and the formatting adds no
    lesson reference: the word [Lesson] is in the chunk's segment exactly
    when it is in the course title or in the chunk text.  With lesson
    metadata the header is the course title, [ - Lesson ] and the number,
    between brackets. *)
Theorem chunk_header_by_lesson (doc : string) (m : ChunkMeta) :
  (lesson_number m = None ->
     chunk_header m = ("[" ++ course_title m ++ "]")%string /\
     str_in "Lesson" (chunk_segment doc m)
       = str_in "Lesson" (course_title m) || str_in "Lesson" doc) /\
  (forall n, lesson_number m = Some n ->
     chunk_header m
       = ("[" ++ course_title m ++ " - Lesson " ++ str_of_int n ++ "]")%string).
Proof.
  split.
  - intros Hnone. split; [now apply chunk_header_no_lesson|].
    unfold chunk_segment. rewrite (chunk_header_no_lesson m Hnone).
    change ("[" ++ course_title m ++ "]")%string
      with (String "[" (course_title m ++ String "]" EmptyString)).
    change (String "[" (course_title m ++ String "]" EmptyString) ++ doc)%string
      with (String "[" ((course_title m ++ String "]" EmptyString) ++ doc)).
    rewrite string_app_assoc.
    change (String "]" EmptyString ++ doc)%string with (String "]" doc).
    cbn [str_in prefix].
    destruct (ascii_dec "L" "[") as [Heq|_]; [discriminate|].
    apply str_in_through; [discriminate | reflexivity].
  - intros n Hsome. unfold chunk_header, chunk_label. rewrite Hsome.
    now rewrite !string_app_assoc.
Qed.

(** C6.  After two executions in a row the citation list holds the
    citations of the second execution and nothing of the first: it is the
    list that execution produces from any earlier state of the tool, one
    citation per chunk the second search matched.  Searches matching 2 and
    then 1 chunks leave 2 and then 1 citations. *)
Theorem last_search_wins (store1 store2 : Store) (tool : Tool)
    (q1 q2 : string) (c1 c2 : option string) (l1 l2 : option Z) :
  let t1 := snd (execute store1 tool q1 c1 l1) in
  let t2 := snd (execute store2 t1 q2 c2 l2) in
  last_sources t2 = citations store2 (search store2 q2 c2 l2) /\
  (forall tool', last_sources t2
                 = last_sources (snd (execute store2 tool' q2 c2 l2))) /\
  length (last_sources t2) = length (chunks (search store2 q2 c2 l2)) /\
  (length (chunks (search store1 q1 c1 l1)) = 2 ->
   length (chunks (search store2 q2 c2 l2)) = 1 ->
   length (last_sources t1) = 2 /\ length (last_sources t2) = 1).
Proof.
  intros t1 t2. subst t1 t2. unfold execute, citations; simpl.
  rewrite !length_map. repeat split; auto.
Qed.

End RetrievalToolFacts.

(** * Properties of the orchestrator *)

Section OrchestratorFacts.

Context {Args ToolDef World : Type}.

Implicit Types (self : AIGenerator Args ToolDef World).
Implicit Types (rag : RAGSystem Args ToolDef World).

Lemma loop_trace_first_request (tool_manager : option (ToolManager Args World))
    n (p : ApiParams Args ToolDef) evs exit :
  loop_trace tool_manager (S n) p evs exit ->
  exists a rest, evs = ModelCall p a :: rest.
Proof. inversion 1; eauto. Qed.

Lemma generate_response_issues_request self query history tools_arg
    tool_manager (w : World) :
  model_calls
    (trace (snd (generate_response self query history tools_arg
                   tool_manager (start w)))) <> [].
Proof.
  destruct (generate_response_trace self query history tools_arg
              tool_manager (start w)) as (evs & Htr & Hshape).
  rewrite Htr; simpl.
  destruct Hshape as [evs t H|evs e H|evs msgs a out H Hout];
    apply loop_trace_first_request in H as (a0 & rest & ->); discriminate.
Qed.

Lemma string_length_app (a b : string) :
  String.length (a ++ b) = String.length a + String.length b.
Proof. induction a as [|x a IH]; simpl; congruence. Qed.

Lemma wrap_query_differs (raw_text : string) : wrap_query raw_text <> raw_text.
Proof.
  intros H. apply (f_equal String.length) in H.
  unfold wrap_query in H. rewrite string_length_app in H.
  simpl in H. lia.
Qed.

(** What [query] leaves of the controller's run: the run of
    [generate_response] on the wrapped text. *)
Lemma query_controller_trace rag raw_text session_id (w : World) :
  exists history tools_arg,
    trace (controller_run (snd (query rag raw_text session_id (start_query w))))
    = trace (snd (generate_response (ai_generator rag) (wrap_query raw_text)
                    history tools_arg
                    (Some (executor (tool_manager_of rag))) (start w))).
Proof.
  unfold query, start_query; simpl.
  destruct session_id as [sid|];
    match goal with
    | |- context [generate_response ?g ?q ?h ?t ?m ?s] =>
        exists h, t; destruct (generate_response g q h t m s) as [[e|answer] run1]
    end; reflexivity.
Qed.

(** C7.  On a query that carries a session id, the text the controller
    works on is the raw text wrapped in the template: a model request is
    issued, and every model request opens with the user message
    [Answer this question about course materials: <raw text>], which is
    not the raw text.  When the controller answers, exactly one exchange is
    stored for the query, under the session id, and its user text is the
    raw text, unwrapped. *)
Theorem query_wraps_prompt_stores_raw rag raw_text sid (w : World) :
  let res := query rag raw_text (Some sid) (start_query w) in
  let evs := trace (controller_run (snd res)) in
  model_calls evs <> [] /\
  (forall p a,
      In (ModelCall p a) evs ->
      exists tail,
        messages p =
          {| role := user;
             msg_content :=
               Text ("Answer this question about course materials: "
                       ++ raw_text) |} :: tail) /\
  ("Answer this question about course materials: " ++ raw_text)%string
    <> raw_text /\
  (forall answer sources,
      fst res = inr (answer, sources) ->
      stored_exchanges (store_calls (snd res)) = [(sid, raw_text, answer)]).
Proof.
  intros res evs. subst evs res.
  destruct (query_controller_trace rag raw_text (Some sid) w)
    as (history & tools_arg & Htr).
  rewrite Htr. repeat split.
  - apply generate_response_issues_request.
  - intros p a Hin.
    pose proof (generate_response_threaded (ai_generator rag)
                  (wrap_query raw_text) history tools_arg
                  (Some (executor (tool_manager_of rag))) w) as Hth.
    assert (H0 : opens_and_alternates (Args := Args) (wrap_query raw_text)
                   [ {| role := user;
                        msg_content := Text (wrap_query raw_text) |} ]).
    { repeat split. now exists []. }
    destruct (threaded_alternates _ _ _ Hth H0 p a Hin) as (Ho & _).
    exact Ho.
  - apply wrap_query_differs.
  - unfold query, start_query; simpl.
    match goal with
    | |- context [generate_response ?g ?q ?h ?t ?m ?s] =>
        destruct (generate_response g q h t m s) as [[e|ans] run1]
    end; simpl; intros answer sources Hres.
    + discriminate.
    + injection Hres as -> _. reflexivity.
Qed.

End OrchestratorFacts.

(** * Further properties of the controller *)

Section ControllerEdgeFacts.

Context {Args ToolDef World : Type}.

Implicit Types (self : AIGenerator Args ToolDef World).
Implicit Types (tm : ToolManager Args World).
Implicit Types (tool_manager : option (ToolManager Args World)).
Implicit Types (s : Run Args ToolDef World).
Implicit Types (p : ApiParams Args ToolDef).
Implicit Types (r : Response Args).
Implicit Types (bs : list (ContentBlock Args)).
Implicit Types (uses : list (string * string * Args)).
Implicit Types (outs : list (string + string)).
Implicit Types (evs : list (Event Args ToolDef)).

Lemma tool_events_no_model_call uses outs p a :
  ~ In (ModelCall p a) (tool_events (ToolDef := ToolDef) uses outs).
Proof.
  intros Hin.
  pose proof (tool_events_are_tool_calls (ToolDef := ToolDef) uses outs) as Hall.
  rewrite Forall_forall in Hall. exact (Hall _ Hin).
Qed.

(** *** A backend that raises *)

Lemma loop_trace_backend_failure tool_manager n p evs exit :
  loop_trace tool_manager n p evs exit ->
  forall p' msg,
    In (ModelCall p' (inl msg)) evs ->
    exists before,
      evs = before ++ [ModelCall p' (inl msg)] /\
      exit = inl (BackendFailure msg).
Proof.
  induction 1; intros p' msg' Hin; simpl in Hin.
  - contradiction.
  - destruct Hin as [[= <- <-]|[]]. now exists [].
  - destruct Hin as [Hin|[]]; congruence.
  - destruct Hin as [Hin|[]]; congruence.
  - destruct Hin as [Hin|Hin]; [congruence|].
    now apply tool_events_no_model_call in Hin.
  - destruct Hin as [Hin|Hin]; [congruence|].
    apply in_app_or in Hin as [Hin|Hin];
      [now apply tool_events_no_model_call in Hin|].
    destruct (IHloop_trace p' msg' Hin) as (before & -> & ->).
    exists (ModelCall p (inr r)
              :: tool_events (tool_uses (content r)) outs ++ before).
    split; [|reflexivity]. simpl. now rewrite <- app_assoc.
Qed.

(** When a model request raises, [generate_response] stops there: the
    failed request is the last event of the trace, whatever round it came
    in, and its exception is the outcome of the call. *)
Theorem backend_failure_is_final self query history tools_arg tool_manager
    (w : World) p msg :
  let run := generate_response self query history tools_arg tool_manager
               (start w) in
  In (ModelCall p (inl msg)) (trace (snd run)) ->
  (exists before, trace (snd run) = before ++ [ModelCall p (inl msg)]) /\
  fst run = inl (BackendFailure msg).
Proof.
  intros run Hin. subst run.
  destruct (generate_response_trace self query history tools_arg
              tool_manager (start w)) as (evs & Htr & Hshape).
  rewrite Htr in *; simpl in *.
  destruct Hshape as [evs t H|evs e H|evs msgs a out H Hout].
  - destruct (loop_trace_backend_failure _ _ _ _ _ H p msg Hin) as (b & _ & Hx).
    discriminate.
  - destruct (loop_trace_backend_failure _ _ _ _ _ H p msg Hin)
      as (b & -> & [= ->]).
    split; [now exists b | reflexivity].
  - apply in_app_or in Hin as [Hin|[Hin|[]]].
    + destruct (loop_trace_backend_failure _ _ _ _ _ H p msg Hin)
        as (b & _ & Hx).
      discriminate.
    + injection Hin as <- ->. subst out.
      split; [now exists evs | reflexivity].
Qed.

(** *** What the outcome is read from *)

Lemma loop_trace_last tool_manager n p evs exit :
  loop_trace tool_manager n p evs exit ->
  forall out : Exn + string,
    match exit with
    | inl e => out = inl e
    | inr (Returned t) => out = inr t
    | inr (FellThrough _) => False
    end ->
    exists before p' a,
      evs = before ++ [ModelCall p' a] /\
      out = match a with
            | inl m => inl (BackendFailure m)
            | inr r => first_text_value r
            end.
Proof.
  induction 1; intros out Hout.
  - contradiction.
  - subst out. now exists [], p, (inl msg).
  - subst out. exists [], p, (inr r). split; [reflexivity | now symmetry].
  - subst out. exists [], p, (inr r). split; [reflexivity | now symmetry].
  - contradiction.
  - destruct (IHloop_trace out Hout) as (before & p' & a & -> & ->).
    exists (ModelCall p (inr r)
              :: tool_events (tool_uses (content r)) outs ++ before), p', a.
    split; [|reflexivity]. simpl. now rewrite <- app_assoc.
Qed.

Lemma response_trace_last self sys tool_manager p0 evs out :
  response_trace self sys tool_manager p0 evs out ->
  exists before p a,
    evs = before ++ [ModelCall p a] /\
    out = match a with
          | inl m => inl (BackendFailure m)
          | inr r => first_text_value r
          end.
Proof.
  destruct 1 as [evs t H|evs e H|evs msgs a out H Hout].
  - now apply (loop_trace_last _ _ _ _ _ H).
  - now apply (loop_trace_last _ _ _ _ _ H).
  - now exists evs, (base_with self msgs sys), a.
Qed.

Lemma last_event_unique evs1 evs2 (e1 e2 : Event Args ToolDef) :
  evs1 ++ [e1] = evs2 ++ [e2] -> evs1 = evs2 /\ e1 = e2.
Proof. intros H. apply app_inj_tail in H. exact H. Qed.

(** [generate_response] returns the text [t] exactly when the last call of
    the run is a model request whose response opens with the text block
    [t]: what it returns is never a tool's output nor the text of an
    earlier response. *)
Theorem returned_text_is_last_response self query history tools_arg
    tool_manager (w : World) t :
  let run := generate_response self query history tools_arg tool_manager
               (start w) in
  fst run = inr t <->
  exists before p r rest,
    trace (snd run) = before ++ [ModelCall p (inr r)] /\
    content r = TextBlock t :: rest.
Proof.
  intros run. subst run.
  destruct (generate_response_trace self query history tools_arg
              tool_manager (start w)) as (evs & Htr & Hshape).
  rewrite Htr; simpl.
  destruct (response_trace_last _ _ _ _ _ _ Hshape)
    as (before & p & a & -> & Hout).
  rewrite Hout. split.
  - destruct a as [m|r]; [discriminate|].
    unfold first_text_value.
    destruct (content r) as [|[t'|id name input] rest] eqn:Hc;
      try discriminate.
    intros [= ->]. now exists before, p, r, rest.
  - intros (before' & p' & r & rest & Heq & Hc).
    apply last_event_unique in Heq as [_ [= -> ->]].
    unfold first_text_value. now rewrite Hc.
Qed.

(** The exceptions [generate_response] can raise all come from its last
    model request: the backend's own failure, [IndexError] when the response
    has no content block, [AttributeError] when its first block is a
    tool-use block.  An exception of a tool is never among them. *)
Theorem raised_exception_is_of_last_request self query history tools_arg
    tool_manager (w : World) e :
  let run := generate_response self query history tools_arg tool_manager
               (start w) in
  fst run = inl e ->
  exists before p a,
    trace (snd run) = before ++ [ModelCall p a] /\
    ((exists m, a = inl m /\ e = BackendFailure m) \/
     (exists r, a = inr r /\ content r = [] /\ e = IndexError) \/
     (exists r id name input rest,
         a = inr r /\ content r = ToolUseBlock id name input :: rest /\
         e = AttributeError "ToolUseBlock" "text")) /\
  (forall m, e <> ToolFailure m).
Proof.
  intros run. subst run.
  destruct (generate_response_trace self query history tools_arg
              tool_manager (start w)) as (evs & Htr & Hshape).
  rewrite Htr; simpl.
  destruct (response_trace_last _ _ _ _ _ _ Hshape)
    as (before & p & a & -> & Hout).
  rewrite Hout. intros He.
  exists before, p, a. split; [reflexivity|].
  destruct a as [m|r].
  - injection He as <-. split; [|discriminate]. left. now exists m.
  - unfold first_text_value in He.
    destruct (content r) as [|[t'|id name input] rest] eqn:Hc;
      try discriminate; injection He as <-; (split; [|discriminate]).
    + right; left. now exists r.
    + right; right. now exists r, id, name, input, rest.
Qed.

(** *** What every request carries, continued *)

(** Every request of a run carries the generator's model name, temperature
    0 and 800 as [max_tokens]: the base parameters are never changed. *)
Theorem requests_carry_base_params self query history tools_arg
    tool_manager (w : World) p a :
  In (ModelCall p a)
     (trace (snd (generate_response self query history tools_arg
                    tool_manager (start w)))) ->
  model p = gen_model self /\ temperature p = 0 /\ max_tokens p = 800.
Proof.
  intros Hin.
  destruct (generate_response_trace self query history tools_arg
              tool_manager (start w)) as (evs & Htr & Hshape).
  rewrite Htr in Hin; simpl in Hin.
  assert (H0 : model (initial_params self query history tools_arg)
               = gen_model self /\
               temperature (initial_params self query history tools_arg) = 0 /\
               max_tokens (initial_params self query history tools_arg) = 800).
  { unfold initial_params. destruct tools_arg as [[|d ds]|]; repeat split. }
  assert (Hloop : forall evs' exit,
             loop_trace tool_manager MAX_TOOL_ROUNDS
               (initial_params self query history tools_arg) evs' exit ->
             In (ModelCall p a) evs' ->
             model p = gen_model self /\ temperature p = 0 /\
             max_tokens p = 800).
  { intros evs' exit Hl Hin'.
    destruct (loop_trace_requests _ _ _ _ _ Hl p a Hin')
      as (_ & _ & _ & Hm & Ht & Hx).
    destruct H0 as (H1 & H2 & H3). repeat split; congruence. }
  destruct Hshape as [evs t H|evs e H|evs msgs a' out H Hout]; eauto.
  apply in_app_or in Hin as [Hin|[Hin|[]]]; eauto.
  injection Hin as <- _. repeat split.
Qed.

(** *** Counting messages *)

Lemma threaded_counts (msgs : list (Message Args)) evs :
  threaded msgs evs ->
  forall k p a,
    nth_error (model_calls evs) k = Some (p, a) ->
    length (messages p) = length msgs + 2 * k.
Proof.
  induction 1 as [msgs|p a|p r outs rest Hlen Hrest IH]; intros k p' a' Hk.
  - destruct k; discriminate.
  - destruct k as [|[|k]]; try discriminate.
    injection Hk as <- _. lia.
  - simpl in Hk. rewrite model_calls_app, model_calls_tool_events in Hk.
    simpl in Hk. destruct k as [|k]; simpl in Hk.
    + injection Hk as <- _. lia.
    + rewrite (IH k p' a' Hk). unfold next_messages.
      rewrite length_app. simpl. lia.
Qed.

(** The request number [k] of a run (counting from 0) carries [2k + 1]
    messages: one for the query and two for each tool round before it. *)
Theorem request_message_count self query history tools_arg tool_manager
    (w : World) k p a :
  nth_error
    (model_calls (trace (snd (generate_response self query history tools_arg
                                tool_manager (start w))))) k = Some (p, a) ->
  length (messages p) = 2 * k + 1.
Proof.
  intros Hk.
  pose proof (generate_response_threaded self query history tools_arg
                tool_manager w) as Hth.
  rewrite (threaded_counts _ _ Hth k p a Hk). simpl. lia.
Qed.

(** *** The request after the last round *)

Lemma nth_error_after (A : Type) (l : list A) (x y : A) n :
  length l <= n ->
  nth_error (l ++ [x]) n = Some y ->
  length l = n /\ y = x.
Proof.
  intros Hle Hn. rewrite nth_error_app2 in Hn by exact Hle.
  destruct (n - length l) as [|d] eqn:Hd; simpl in Hn.
  - injection Hn as <-. split; [lia | reflexivity].
  - destruct d; discriminate.
Qed.

(** A request number [MAX_TOOL_ROUNDS] (the third), when there is one, is
    the synthesis request: it offers no tools, whatever catalog was passed,
    and it is the last call of the run, so that nothing its response asks
    for is executed. *)
Theorem request_after_last_round_is_synthesis self query history tools_arg
    tool_manager (w : World) p a :
  let run := generate_response self query history tools_arg tool_manager
               (start w) in
  nth_error (model_calls (trace (snd run))) MAX_TOOL_ROUNDS = Some (p, a) ->
  without_catalog p /\
  (exists before, trace (snd run) = before ++ [ModelCall p a]) /\
  length (model_calls (trace (snd run))) = MAX_TOOL_ROUNDS + 1.
Proof.
  intros run Hn. subst run.
  destruct (generate_response_trace self query history tools_arg
              tool_manager (start w)) as (evs & Htr & Hshape).
  rewrite Htr in *. change (trace (start w) ++ evs) with evs in *.
  clear Htr.
  destruct Hshape as [evs t H|evs e H|evs msgs a' out H Hout].
  - apply loop_trace_model_calls in H.
    assert (Hsome : nth_error (model_calls evs) MAX_TOOL_ROUNDS <> None)
      by congruence.
    apply nth_error_Some in Hsome. lia.
  - apply loop_trace_model_calls in H.
    assert (Hsome : nth_error (model_calls evs) MAX_TOOL_ROUNDS <> None)
      by congruence.
    apply nth_error_Some in Hsome. lia.
  - apply loop_trace_model_calls in H.
    rewrite model_calls_app in *.
    change (model_calls [ModelCall (base_with self msgs
                                      (system_content_of history)) a'])
      with [(base_with self msgs (system_content_of history), a')] in *.
    destruct (nth_error_after _ _ _ _ _ H Hn) as [Hlen [= -> ->]].
    repeat split.
    + now exists evs.
    + rewrite length_app, Hlen. reflexivity.
Qed.

(** *** Where tool calls come from *)

Lemma tool_events_split uses outs name input o :
  In (ToolCall name input o) (tool_events (ToolDef := ToolDef) uses outs) ->
  exists pre post id,
    tool_events (ToolDef := ToolDef) uses outs
      = pre ++ ToolCall name input o :: post /\
    Forall is_tool_call pre /\
    In (id, name, input) uses.
Proof.
  intros Hin.
  destruct (tool_events_In uses outs name input o Hin)
    as (pre & post & id & Heq & _ & Hu & _).
  exists pre, post, id. repeat split; auto.
  pose proof (tool_events_are_tool_calls (ToolDef := ToolDef) uses outs) as Hall.
  rewrite Heq in Hall. now apply Forall_app in Hall as [Hpre _].
Qed.

Lemma loop_trace_tool_call_requested tool_manager n p evs exit :
  loop_trace tool_manager n p evs exit ->
  forall name input o,
    In (ToolCall name input o) evs ->
    exists before p' r mid after id,
      evs = before ++ ModelCall p' (inr r)
                   :: mid ++ ToolCall name input o :: after /\
      Forall is_tool_call mid /\
      stop_reason r = "tool_use" /\
      In (ToolUseBlock id name input) (content r) /\
      tool_manager <> None.
Proof.
  induction 1; intros name input o Hin; simpl in Hin.
  - contradiction.
  - destruct Hin as [Hin|[]]; discriminate.
  - destruct Hin as [Hin|[]]; discriminate.
  - destruct Hin as [Hin|[]]; discriminate.
  - destruct Hin as [Hin|Hin]; [discriminate|].
    apply tool_events_split in Hin as (pre & post & id & Heq & Hpre & Hu).
    exists [], p, r, pre, post, id. rewrite Heq.
    repeat split; auto using tool_uses_In.
  - destruct Hin as [Hin|Hin]; [discriminate|].
    apply in_app_or in Hin as [Hin|Hin].
    + apply tool_events_split in Hin as (pre & post & id & Heq & Hpre & Hu).
      exists [], p, r, pre, (post ++ rest), id. rewrite Heq.
      repeat split; auto using tool_uses_In.
      simpl. now rewrite <- app_assoc.
    + destruct (IHloop_trace name input o Hin)
        as (before & p' & r' & mid & after & id & Heq & Hmid & Hs & Hb & Hm).
      exists (ModelCall p (inr r)
                :: tool_events (tool_uses (content r)) outs ++ before),
             p', r', mid, after, id.
      rewrite Heq. repeat split; auto.
      simpl. now rewrite <- app_assoc.
Qed.

(** [generate_response] runs no tool of its own accord: every tool call of
    the trace lies in the round that follows a model response which stopped
    for [tool_use] and holds a tool-use block with that very name and input,
    and a tool manager was passed. *)
Theorem tool_calls_are_requested self query history tools_arg tool_manager
    (w : World) name input o :
  let run := generate_response self query history tools_arg tool_manager
               (start w) in
  In (ToolCall name input o) (trace (snd run)) ->
  exists before p r mid after id,
    trace (snd run) = before ++ ModelCall p (inr r)
                             :: mid ++ ToolCall name input o :: after /\
    Forall is_tool_call mid /\
    stop_reason r = "tool_use" /\
    In (ToolUseBlock id name input) (content r) /\
    tool_manager <> None.
Proof.
  intros run Hin. subst run.
  destruct (generate_response_trace self query history tools_arg
              tool_manager (start w)) as (evs & Htr & Hshape).
  rewrite Htr in *; simpl in *.
  destruct Hshape as [evs t H|evs e H|evs msgs a out H Hout].
  - apply (loop_trace_tool_call_requested _ _ _ _ _ H name input o Hin).
  - apply (loop_trace_tool_call_requested _ _ _ _ _ H name input o Hin).
  - apply in_app_or in Hin as [Hin|[Hin|[]]]; [|discriminate].
    destruct (loop_trace_tool_call_requested _ _ _ _ _ H name input o Hin)
      as (before & p' & r' & mid & after & id & Heq & Hmid & Hs & Hb & Hm).
    exists before, p', r', mid,
           (after ++ [ModelCall (base_with self msgs
                                   (system_content_of history)) a]), id.
    rewrite Heq. repeat split; auto.
    rewrite <- app_assoc. simpl. now rewrite <- app_assoc.
Qed.

(** *** [_execute_tool_calls] on its own *)

Lemma for_each_block_no_tool_use tool_manager bs
    (acc : list ToolResult * bool) s :
  tool_uses bs = [] ->
  for_each_block tool_manager bs acc s = (inr acc, s).
Proof.
  revert acc s; induction bs as [|[t|id name input] bs IH];
    intros [results flag] s Hnone; simpl in *.
  - reflexivity.
  - unfold bind, ret. now apply IH.
  - discriminate.
Qed.

(** On a response without tool-use block (an empty content list, or text
    blocks only) [_execute_tool_calls] returns no result and no error flag,
    calls nothing and leaves the world as it is, with or without a tool
    manager. *)
Theorem execute_tool_calls_without_tool_use tool_manager r s :
  tool_uses (content r) = [] ->
  _execute_tool_calls r tool_manager s = (inr ([], false), s).
Proof.
  intros Hnone. unfold _execute_tool_calls.
  now apply for_each_block_no_tool_use.
Qed.

Lemma for_each_block_no_manager bs (acc : list ToolResult * bool) s :
  for_each_block None bs acc s =
    (inr (fst acc ++ map no_manager_result (tool_uses bs),
          snd acc || list_truthy (tool_uses bs)), s).
Proof.
  revert acc s; induction bs as [|[t|id name input] bs IH];
    intros [results flag] s; simpl.
  - now rewrite app_nil_r, orb_false_r.
  - unfold bind, ret. now rewrite IH.
  - unfold bind, try_except, ret, raise; simpl. rewrite IH; simpl.
    rewrite <- app_assoc, orb_true_r. reflexivity.
Qed.

(** With [None] as tool manager [_execute_tool_calls] still does not raise:
    the failed lookup of [execute_tool] is caught like a tool's exception,
    so every tool-use block gets a Tool Result that words the
    [AttributeError], the error flag is set as soon as there is one such
    block, and nothing is called. *)
Theorem execute_tool_calls_without_manager r s :
  _execute_tool_calls (World := World) r None s =
    (inr (map no_manager_result (tool_uses (content r)),
          list_truthy (tool_uses (content r))), s).
Proof.
  unfold _execute_tool_calls. now rewrite for_each_block_no_manager.
Qed.

Lemma for_each_block_app tool_manager bs1 bs2
    (acc : list ToolResult * bool) s :
  for_each_block tool_manager (bs1 ++ bs2) acc s =
    match for_each_block tool_manager bs1 acc s with
    | (inl e, s') => (inl e, s')
    | (inr acc', s') => for_each_block tool_manager bs2 acc' s'
    end.
Proof.
  revert acc s; induction bs1 as [|b bs1 IH]; intros acc s; simpl.
  - reflexivity.
  - unfold bind.
    destruct (execute_block tool_manager acc b s) as [[e|acc'] s'];
      [reflexivity | apply IH].
Qed.

(** The blocks of a response are worked off from left to right: running
    [_execute_tool_calls] on the content [bs1 ++ bs2] is running it on [bs1]
    and then, from the state this leaves, on [bs2]; the results are the two
    result lists one after the other and the error flag is the disjunction
    of the two. *)
Theorem execute_tool_calls_app tm (stop : string) bs1 bs2 s :
  let run1 := _execute_tool_calls {| stop_reason := stop; content := bs1 |}
                (Some tm) s in
  let run2 := _execute_tool_calls {| stop_reason := stop; content := bs2 |}
                (Some tm) (snd run1) in
  exists res1 err1 res2 err2,
    fst run1 = inr (res1, err1) /\
    fst run2 = inr (res2, err2) /\
    _execute_tool_calls {| stop_reason := stop; content := bs1 ++ bs2 |}
      (Some tm) s
    = (inr (res1 ++ res2, err1 || err2), snd run2).
Proof.
  intros run1 run2. subst run1 run2. unfold _execute_tool_calls; simpl.
  rewrite for_each_block_app. rewrite !for_each_block_run; simpl.
  do 4 eexists. repeat split.
Qed.

End ControllerEdgeFacts.

(** * Rounds bound the requests, not the tool calls *)

Section ManyToolsInOneRound.

Import Fixtures Scenarios.

Lemma tool_calls_app (evs1 evs2 : list (Event Args ToolDef)) :
  tool_calls (evs1 ++ evs2) = tool_calls evs1 ++ tool_calls evs2.
Proof.
  induction evs1 as [|[p a|name input o] evs1 IH]; simpl; congruence.
Qed.

Lemma tool_calls_tool_events (uses : list (string * string * Args))
    (outs : list (string + string)) :
  length outs = length uses ->
  length (tool_calls (tool_events (ToolDef := ToolDef) uses outs))
    = length uses.
Proof.
  revert outs; induction uses as [|[[id name] input] uses IH];
    intros [|o outs] Hlen; simpl in *; try discriminate; try reflexivity.
  f_equal. apply IH. now injection Hlen.
Qed.

Lemma tool_uses_repeat (id name : string) (input : Args) n :
  tool_uses (repeat (ToolUseBlock id name input) n)
    = repeat (id, name, input) n.
Proof. induction n as [|n IH]; simpl; congruence. Qed.

Lemma steady_outcomes (uses : list (string * string * Args)) (w : unit) :
  existsb raised (fst (tool_outcomes steady_tool_manager uses w)) = false.
Proof.
  revert w; induction uses as [|[[id name] input] uses IH]; intros w; simpl.
  - reflexivity.
  - specialize (IH w).
    destruct (tool_outcomes steady_tool_manager uses w) as [outs w']; simpl in *.
    exact IH.
Qed.

(** [MAX_TOOL_ROUNDS] bounds the rounds, not the tool executions: for every
    [n] there is a run in which the one response of the first round asks for
    [n] tools and all [n] are executed, between two model requests. *)
Theorem tool_calls_not_bounded_by_rounds (n : nat) :
  let run := generate_response (eager_generator n) "test" None
               (Some ["search_course_content"]) (Some steady_tool_manager)
               (start tt) in
  length (tool_calls (trace (snd run))) = n /\
  length (model_calls (trace (snd run))) = 2 /\
  fst run = inr "done".
Proof.
  intros run.
  assert (Hrun : exists outs,
             length outs = n /\
             run = (inr "done",
                    {| world := tt;
                       trace :=
                         ModelCall (initial_params (eager_generator n) "test"
                                      None (Some ["search_course_content"]))
                                   (inr (ask n))
                           :: tool_events (tool_uses (content (ask n))) outs
                           ++ [ModelCall
                                 (with_messages
                                    (initial_params (eager_generator n) "test"
                                       None (Some ["search_course_content"]))
                                    (next_messages
                                       [ {| role := user;
                                            msg_content := Text "test" |} ]
                                       (ask n) outs))
                                 (inr (make_text_response "done"))] |})).
  { subst run. unfold generate_response, bind, MAX_TOOL_ROUNDS.
    rewrite tool_rounds_step; cbv zeta. simpl.
    unfold _execute_tool_calls. rewrite for_each_block_run; simpl.
    pose proof (steady_outcomes (tool_uses (content (ask n))) tt) as Hok.
    pose proof (tool_outcomes_length steady_tool_manager
                  (tool_uses (content (ask n))) tt) as Hlen.
    simpl in Hok, Hlen.
    destruct (tool_outcomes steady_tool_manager
                (tool_uses (repeat (ToolUseBlock "toolu_01"
                                      "search_course_content" test_input) n))
                tt) as [outs []]; simpl in *.
    rewrite Hok.
    exists outs. split.
    - rewrite Hlen, tool_uses_repeat. apply repeat_length.
    - reflexivity. }
  destruct Hrun as (outs & Hlen & ->). simpl.
  rewrite tool_calls_app, model_calls_app, model_calls_tool_events. simpl.
  rewrite app_nil_r. repeat split.
  rewrite tool_calls_tool_events.
  - rewrite tool_uses_repeat. apply repeat_length.
  - rewrite tool_uses_repeat, repeat_length. exact Hlen.
Qed.

End ManyToolsInOneRound.

(** * The tests of the repository, and instances of the theorems *)

Section Tests.

Import Fixtures.

(** [test_generate_response_returns_text_when_no_tool_use] *)
Example test_returns_text_when_no_tool_use :
  fst (run_test "test" None None None direct_answer) = inr "Direct answer".
Proof. reflexivity. Qed.

(** [test_two_tool_rounds_makes_three_api_calls_and_executes_both_tools],
    [test_final_synthesis_call_has_no_tools],
    [test_intermediate_tool_round_calls_include_tools] and
    [test_two_tool_rounds_message_list_grows_correctly] *)
Example test_two_tool_rounds :
  let run := run_test "test" None (Some ["search_course_content"]) tm two_rounds in
  fst run = inr "Synthesized answer" /\
  map (fun c => (length (messages (fst c)), tools (fst c)))
      (model_calls (trace (snd run)))
    = [ (1, Some ["search_course_content"]) ;
        (3, Some ["search_course_content"]) ;
        (5, None) ] /\
  length (trace (snd run)) = 5.
Proof. vm_compute. repeat split. Qed.

(** [test_tool_exception_terminates_loop_and_makes_synthesis_call] *)
Example test_tool_exception_terminates_loop :
  let run := run_test "test" None (Some ["search_course_content"]) tm tool_crash in
  fst run = inr "Graceful response" /\
  length (model_calls (trace (snd run))) = 2 /\
  option_map (fun c => last (messages (fst c))
                         {| role := user; msg_content := Text EmptyString |})
    (nth_error (model_calls (trace (snd run))) 1)
    = Some {| role := user;
              msg_content :=
                Results [ {| tool_use_id := "toolu_01";
                             result_content :=
                               "Tool execution error: Tool crashed" |} ] |}.
Proof. vm_compute. repeat split. Qed.

(** [test_format_results_header_without_lesson_number] *)
Example test_header_without_lesson_number :
  let result :=
    fst (CourseSearchTool.execute
           (store_returning
              (CourseSearchTool.Matches ["chunk content"] [python_course]) None)
           fresh_tool "test" None None) in
  str_in "[Python Course]" result = true /\ str_in "Lesson" result = false.
Proof. vm_compute. split; reflexivity. Qed.

(** [test_system_prompt_allows_up_to_two_tool_calls] *)
Example test_system_prompt_allows_up_to_two_tool_calls :
  str_in "One search per query maximum" SYSTEM_PROMPT = false /\
  str_in "Up to 2 tool calls per query" SYSTEM_PROMPT = true.
Proof. vm_compute. split; reflexivity. Qed.

(** [test_generate_response_no_tools_param_when_tools_is_none] *)
Example test_no_tools_param_when_tools_is_none :
  map (fun c => (tools (fst c), tool_choice (fst c)))
      (model_calls (trace (snd (run_test "test" None None None direct_answer))))
    = [(None, None)].
Proof. reflexivity. Qed.

(** [test_execute_returns_error_message],
    [test_execute_returns_no_content_when_empty_no_filters],
    [test_execute_returns_no_content_with_course_filter_info] and
    [test_execute_returns_no_content_with_lesson_filter_info] *)
Example test_execute_without_matches :
  let empty := store_returning (CourseSearchTool.Matches [] []) None in
  fst (CourseSearchTool.execute
         (store_returning (CourseSearchTool.SearchError "search failed") None)
         fresh_tool "test query" None None) = "search failed" /\
  fst (CourseSearchTool.execute empty fresh_tool "test query" None None)
    = "No relevant content found." /\
  str_in "in course 'Python 101'"
    (fst (CourseSearchTool.execute empty fresh_tool "test query"
            (Some "Python 101") None)) = true /\
  str_in "in lesson 3"
    (fst (CourseSearchTool.execute empty fresh_tool "test query"
            None (Some 3%Z))) = true.
Proof. vm_compute. repeat split. Qed.

(** [test_query_wraps_user_query_in_prompt] *)
Example test_query_wraps_user_query_in_prompt :
  map (fun c => messages (fst c))
      (model_calls
         (trace (controller_run
                   (snd (query rag "What is Python?" None
                           (start_query direct_answer))))))
    = [[ {| role := user;
            msg_content :=
              Text "Answer this question about course materials: What is Python?" |} ]].
Proof. reflexivity. Qed.

(** An instance of C10: the first of two tools raises, the second is still
    run, and both get their Tool Result. *)
Lemma execute_tool_calls_after_a_failure :
  let run := _execute_tool_calls (ToolDef := ToolDef) two_blocks tm
               (start first_crashes) in
  fst run
    = inr ([ {| tool_use_id := "toolu_01";
                result_content := "Tool execution error: Tool crashed" |} ;
             {| tool_use_id := "toolu_02"; result_content := "tool output" |} ],
           true) /\
  trace (snd run)
    = [ ToolCall "get_course_outline" test_input (inl "Tool crashed") ;
        ToolCall "search_course_content" test_input (inr "tool output") ].
Proof.
  destruct (execute_tool_calls_runs_every_block (ToolDef := ToolDef)
              mock_tool_manager two_blocks (start first_crashes))
    as (_ & Htrace & _ & Hres & _).
  unfold tm. split.
  - rewrite Hres. reflexivity.
  - rewrite Htrace. reflexivity.
Defined.


(** An instance of C3. *)
Lemma direct_answer_instance :
  messages_create (client generator)
    (initial_params generator "test" None (Some ["search_course_content"]))
    direct_answer
    = (inr (make_text_response "Direct answer"),
       {| answers := []; outcomes := [] |}) /\
  returns_at_once tm (make_text_response "Direct answer") /\
  run_test "test" None (Some ["search_course_content"]) tm direct_answer
    = (inr "Direct answer",
       {| world := {| answers := []; outcomes := [] |};
          trace :=
            [ModelCall
               (initial_params generator "test" None
                  (Some ["search_course_content"]))
               (inr (make_text_response "Direct answer"))] |}).
Proof.
  assert (H1 : messages_create (client generator)
                 (initial_params generator "test" None
                    (Some ["search_course_content"]))
                 direct_answer
               = (inr (make_text_response "Direct answer"),
                  {| answers := []; outcomes := [] |})) by reflexivity.
  assert (H2 : returns_at_once tm (make_text_response "Direct answer")).
  { left. simpl. discriminate. }
  split; [exact H1|]. split; [exact H2|].
  exact (proj1 (generate_response_direct_answer generator "test" None
                  (Some ["search_course_content"]) tm direct_answer _ _ H1 H2)).
Defined.

(** C3 as worded fails when no tool manager was passed and the response
    opens with a tool-use block: that block has no text, and the call
    raises instead of returning one. *)
Lemma tool_use_block_has_no_text :
  ~ (forall (tool_manager : option (ToolManager Args Script)) (w : Script),
        direct_answer_returns_text generator "test" None
          (Some ["search_course_content"]) tool_manager w).
Proof.
  intros H.
  destruct (H None Scenarios.tool_use_without_manager
              (make_tool_use_response "search_course_content" test_input
                 "toolu_01")
              {| answers := []; outcomes := [] |}
              eq_refl (or_intror eq_refl))
    as (_ & t & _ & Hret).
  vm_compute in Hret. discriminate Hret.
Qed.

(** What the call does there: one request, then [AttributeError]. *)
Example test_tool_use_without_manager_raises :
  run_test "test" None (Some ["search_course_content"]) None
    Scenarios.tool_use_without_manager
  = (inl (AttributeError "ToolUseBlock" "text"),
     {| world := {| answers := []; outcomes := [] |};
        trace :=
          [ModelCall
             (initial_params generator "test" None
                (Some ["search_course_content"]))
             (inr (make_tool_use_response "search_course_content" test_input
                     "toolu_01"))] |}).
Proof. reflexivity. Qed.

(** An instance of C4: the first two requests of the two-round run. *)
Lemma message_threading_instance :
  let evs := trace (snd (run_test "test" None
                           (Some ["search_course_content"]) tm two_rounds)) in
  exists p1 a1 mid p2 a2 post,
    evs = [] ++ ModelCall p1 a1 :: mid ++ ModelCall p2 a2 :: post /\
    Forall is_tool_call mid /\
    exists r outs,
      a1 = inr r /\
      mid = tool_events (tool_uses (content r)) outs /\
      messages p2 =
        messages p1
          ++ [ {| role := assistant; msg_content := Blocks (content r) |} ;
               {| role := user;
                  msg_content :=
                    Results (tool_results_for (tool_uses (content r)) outs) |} ] /\
      length outs = length (tool_uses (content r)) /\
      length (tool_results_for (tool_uses (content r)) outs)
        = length (tool_uses (content r)) /\
      map tool_use_id (tool_results_for (tool_uses (content r)) outs)
        = map (fun u => fst (fst u)) (tool_uses (content r)).
Proof.
  intros evs.
  assert (Heq : exists p1 a1 mid p2 a2 post,
             evs = [] ++ ModelCall p1 a1 :: mid ++ ModelCall p2 a2 :: post /\
             Forall is_tool_call mid).
  { do 2 eexists.
    exists [ToolCall "get_course_outline" test_input (inr "tool output")].
    do 3 eexists. split; [reflexivity|]. repeat constructor. }
  destruct Heq as (p1 & a1 & mid & p2 & a2 & post & Heq & Hmid).
  exists p1, a1, mid, p2, a2, post. split; [exact Heq|]. split; [exact Hmid|].
  exact (proj1 (generate_response_message_threading generator "test" None
                  (Some ["search_course_content"]) tm two_rounds)
           [] p1 a1 mid p2 a2 post Heq Hmid).
Defined.

(** An instance of C5 as the code has it. *)
Lemma nonempty_catalog_instance :
  Some ["search_course_content"] = Some ["search_course_content"] /\
  ["search_course_content"] <> [] /\
  catalog_policy generator "test" None (Some ["search_course_content"]) tm
    two_rounds ["search_course_content"].
Proof.
  split; [reflexivity|]. split; [discriminate|].
  apply (nonempty_catalog_policy generator "test" None
           (Some ["search_course_content"]) tm two_rounds
           ["search_course_content"]); [reflexivity | discriminate].
Defined.

(** C5 as worded fails on an empty catalog: it is supplied, and the
    request of the loop carries no [tools] at all. *)
Lemma empty_catalog_not_carried :
  ~ (forall (tools_arg : option (list ToolDef)) (catalog : list ToolDef),
        tools_arg = Some catalog ->
        catalog_policy generator "test" None tools_arg tm direct_answer
          catalog).
Proof.
  intros H. destruct (H (Some []) [] eq_refl) as [Hloop _].
  cbv zeta in Hloop.
  destruct (Hloop (initial_params generator "test" None (Some []))
                  (inr (make_text_response "Direct answer")))
    as [Htools _].
  - vm_compute. auto.
  - discriminate Htools.
Qed.

(** An instance of C9, with the history of
    [test_generate_response_builds_system_with_history]. *)
Lemma system_directive_instance :
  let history := ("User: Hello" ++ nl ++ "Assistant: Hi")%string in
  let p := initial_params generator "test" (Some history) None in
  let a := inr (make_text_response "Direct answer") in
  In (ModelCall p a)
     (trace (snd (run_test "test" (Some history) None None direct_answer))) /\
  system p = system_content_of (Some history) /\
  system_content_of (Some history)
    = (SYSTEM_PROMPT ++ (nl ++ nl ++ "Previous conversation:" ++ nl)
         ++ history)%string.
Proof.
  intros history p a.
  assert (Hin : In (ModelCall p a)
                   (trace (snd (run_test "test" (Some history) None None
                                  direct_answer)))).
  { left. reflexivity. }
  destruct (generate_response_system_directive generator "test"
              (Some history) None None direct_answer) as (Hsys & _ & Hhist).
  split; [exact Hin|]. split.
  - exact (Hsys p a Hin).
  - exact (Hhist history eq_refl).
Defined.

(** An instance of C6: [test_execute_overwrites_last_sources_on_each_call]. *)
Lemma last_search_wins_instance :
  let t1 := snd (CourseSearchTool.execute (store_returning results1 None)
                   fresh_tool "first query" None None) in
  let t2 := snd (CourseSearchTool.execute (store_returning results2 None)
                   t1 "second query" None None) in
  length (CourseSearchTool.chunks results1) = 2 /\
  length (CourseSearchTool.chunks results2) = 1 /\
  length (CourseSearchTool.last_sources t1) = 2 /\
  length (CourseSearchTool.last_sources t2) = 1.
Proof.
  intros t1 t2.
  split; [reflexivity|]. split; [reflexivity|].
  exact (proj2 (proj2 (proj2
           (last_search_wins (store_returning results1 None)
              (store_returning results2 None) fresh_tool
              "first query" "second query" None None None None)))
           eq_refl eq_refl).
Defined.

(** An instance of C8 as the model has it. *)
Lemma chunk_header_instance :
  CourseSearchTool.lesson_number python_course = None /\
  CourseSearchTool.chunk_header python_course = "[Python Course]" /\
  str_in "Lesson" (CourseSearchTool.chunk_segment "chunk content" python_course)
    = false.
Proof.
  split; [reflexivity|].
  destruct (proj1 (chunk_header_by_lesson "chunk content" python_course)
              eq_refl) as [Hh Hs].
  split.
  - rewrite Hh. reflexivity.
  - rewrite Hs. reflexivity.
Defined.

(** C8 as worded fails for a course whose title holds the word. *)
Lemma lesson_in_course_title :
  ~ (forall (doc : string) (m : CourseSearchTool.ChunkMeta),
        CourseSearchTool.lesson_number m = None ->
        CourseSearchTool.header_omits_lesson doc m).
Proof.
  intros H.
  destruct (H "chunk content" lesson_planning eq_refl) as [_ Hs].
  vm_compute in Hs. discriminate Hs.
Qed.

(** An instance of C7: [test_query_with_session_id_stores_exchange]. *)
Lemma query_instance :
  let res := query rag "original query" (Some "session_1")
               (start_query direct_answer) in
  fst res = inr ("Direct answer", []) /\
  stored_exchanges (store_calls (snd res))
    = [("session_1", "original query", "Direct answer")].
Proof.
  intros res.
  assert (Hres : fst res = inr ("Direct answer", [])) by reflexivity.
  split; [exact Hres|].
  exact (proj2 (proj2 (proj2
           (query_wraps_prompt_stores_raw rag "original query" "session_1"
              direct_answer))) "Direct answer" [] Hres).
Defined.

End Tests.

(** * Instances of the further properties *)

Section FurtherInstances.

Import Fixtures Scenarios.

Lemma backend_failure_instance :
  let run := run_test "test" None None None backend_down in
  let p := initial_params generator "test" None None in
  In (ModelCall p (inl "overloaded")) (trace (snd run)) /\
  (exists before, trace (snd run) = before ++ [ModelCall p (inl "overloaded")]) /\
  fst run = inl (BackendFailure "overloaded").
Proof.
  intros run p.
  assert (Hin : In (ModelCall p (inl "overloaded")) (trace (snd run)))
    by (left; reflexivity).
  split; [exact Hin|].
  exact (backend_failure_is_final generator "test" None None None
           backend_down p "overloaded" Hin).
Defined.

Lemma returned_text_instance :
  let run := run_test "test" None (Some ["search_course_content"]) tm
               two_rounds in
  fst run = inr "Synthesized answer" /\
  exists before p r rest,
    trace (snd run) = before ++ [ModelCall p (inr r)] /\
    content r = TextBlock "Synthesized answer" :: rest.
Proof.
  intros run.
  assert (Hres : fst run = inr "Synthesized answer") by reflexivity.
  split; [exact Hres|].
  exact (proj1 (returned_text_is_last_response generator "test" None
                  (Some ["search_course_content"]) tm two_rounds
                  "Synthesized answer") Hres).
Defined.

Lemma raised_exception_instance :
  let run := run_test "test" None None None empty_reply in
  fst run = inl IndexError /\
  exists before p a,
    trace (snd run) = before ++ [ModelCall p a] /\
    ((exists m, a = inl m /\ IndexError = BackendFailure m) \/
     (exists r, a = inr r /\ content r = [] /\ IndexError = IndexError) \/
     (exists r id name input rest,
         a = inr r /\ content r = ToolUseBlock id name input :: rest /\
         IndexError = AttributeError "ToolUseBlock" "text")) /\
    (forall m, IndexError <> ToolFailure m).
Proof.
  intros run.
  assert (Hres : fst run = inl IndexError) by reflexivity.
  split; [exact Hres|].
  exact (raised_exception_is_of_last_request generator "test" None None None
           empty_reply IndexError Hres).
Defined.

Lemma requested_tool_call_instance :
  let run := run_test "test" None (Some ["search_course_content"]) tm
               first_crashes in
  In (ToolCall "search_course_content" test_input (inr "tool output"))
     (trace (snd run)) /\
  exists before p r mid after id,
    trace (snd run)
      = before ++ ModelCall p (inr r)
               :: mid ++ ToolCall "search_course_content" test_input
                           (inr "tool output") :: after /\
    Forall is_tool_call mid /\
    stop_reason r = "tool_use" /\
    In (ToolUseBlock id "search_course_content" test_input) (content r) /\
    tm <> None.
Proof.
  intros run.
  assert (Hin : In (ToolCall (ToolDef := ToolDef) "search_course_content"
                      test_input (inr "tool output")) (trace (snd run))).
  { vm_compute. auto. }
  split; [exact Hin|].
  exact (tool_calls_are_requested generator "test" None
           (Some ["search_course_content"]) tm first_crashes
           "search_course_content" test_input (inr "tool output") Hin).
Defined.

Lemma message_count_instance :
  let calls := model_calls (trace (snd (run_test "test" None
                                         (Some ["search_course_content"]) tm
                                         two_rounds))) in
  exists p a,
    nth_error calls 2 = Some (p, a) /\ length (messages p) = 2 * 2 + 1.
Proof.
  intros calls.
  destruct (nth_error calls 2) as [[p a]|] eqn:H2; [|discriminate H2].
  exists p, a. split; [reflexivity|].
  exact (request_message_count generator "test" None
           (Some ["search_course_content"]) tm two_rounds 2 p a H2).
Defined.

Lemma base_params_instance :
  let run := run_test "test" None (Some ["search_course_content"]) tm
               direct_answer in
  let p := initial_params generator "test" None
             (Some ["search_course_content"]) in
  let a := inr (make_text_response "Direct answer") in
  In (ModelCall p a) (trace (snd run)) /\
  model p = gen_model generator /\ temperature p = 0 /\ max_tokens p = 800.
Proof.
  intros run p a.
  assert (Hin : In (ModelCall p a) (trace (snd run))) by (left; reflexivity).
  split; [exact Hin|].
  exact (requests_carry_base_params generator "test" None
           (Some ["search_course_content"]) tm direct_answer p a Hin).
Defined.

Lemma empty_catalog_instance :
  let run := run_test "test" None (Some []) tm direct_answer in
  let p := initial_params generator "test" None (Some []) in
  let a := inr (make_text_response "Direct answer") in
  opt_truthy list_truthy (Some (@nil ToolDef)) = false /\
  In (ModelCall p a) (trace (snd run)) /\
  without_catalog p.
Proof.
  intros run p a.
  assert (Hin : In (ModelCall p a) (trace (snd run))) by (left; reflexivity).
  split; [reflexivity|]. split; [exact Hin|].
  exact (empty_catalog_requests generator "test" None (Some []) tm
           direct_answer p a eq_refl Hin).
Defined.

Lemma synthesis_request_instance :
  let run := run_test "test" None (Some ["search_course_content"]) tm
               two_rounds in
  exists p a,
    nth_error (model_calls (trace (snd run))) MAX_TOOL_ROUNDS = Some (p, a) /\
    without_catalog p /\
    (exists before, trace (snd run) = before ++ [ModelCall p a]) /\
    length (model_calls (trace (snd run))) = MAX_TOOL_ROUNDS + 1.
Proof.
  intros run.
  destruct (nth_error (model_calls (trace (snd run))) MAX_TOOL_ROUNDS)
    as [[p a]|] eqn:Hn; [|discriminate Hn].
  exists p, a. split; [reflexivity|].
  exact (request_after_last_round_is_synthesis generator "test" None
           (Some ["search_course_content"]) tm two_rounds p a Hn).
Defined.

Lemma text_only_instance :
  tool_uses (content (make_text_response "Some response")) = [] /\
  _execute_tool_calls (make_text_response "Some response") tm
    (start direct_answer)
  = (inr ([], false), start (ToolDef := ToolDef) direct_answer).
Proof.
  split; [reflexivity|].
  exact (execute_tool_calls_without_tool_use tm
           (make_text_response "Some response") (start direct_answer) eq_refl).
Defined.

End FurtherInstances.
